(** * The Qinglong client of [src/client.ts], embedded in Rocq

    The client is a TypeScript class over two libraries: [axios] (the HTTP
    transport) and [async-rwlock].  Its methods are [async] functions, so the
    embedding is in three layers:

    - the JavaScript values the service's JSON answers are made of, with the
      operations the client applies to them (property access, truthiness,
      [===], template literals);
    - the methods as programs over a small set of commands (read and write
      [this], create and take a lock, call the transport, [await]);
    - two interpreters of those programs: [run], one call running alone to
      its completion, and [step], several calls of one client interleaved at
      their [await]s, as the JavaScript event loop does. *)

From Stdlib Require Import ZArith List String Ascii Bool Lia DecimalString.
Import ListNotations.

Set Warnings "-register-all".
Local Open Scope string_scope.
Local Open Scope Z_scope.

(** ** JavaScript values *)

(** What [JSON.parse] builds, and [undefined].  Numbers are the integers: the
    client only tests a number for truthiness and against the literal [200].
    An object keeps its properties in order, each key once. *)
Inductive value : Type :=
| VUndefined
| VNull
| VBool (b : bool)
| VNum (n : Z)
| VStr (s : string)
| VArr (elems : list value)
| VObj (props : list (string * value)).

(** [ToBoolean]: what [if (v)], [!v] and [a && b] test. *)
Definition truthy (v : value) : bool :=
  match v with
  | VUndefined | VNull => false
  | VBool b => b
  | VNum n => negb (n =? 0)
  | VStr s => negb (s =? "")%string
  | VArr _ | VObj _ => true
  end.

Definition nullish (v : value) : bool :=
  match v with
  | VUndefined | VNull => true
  | _ => false
  end.

(** [a === b] where one side is a primitive, as in [code !== 200] and
    [env.name === name]: two arrays or objects are compared by identity in
    JavaScript, which the client never asks for. *)
Definition strict_equals (a b : value) : bool :=
  match a, b with
  | VUndefined, VUndefined => true
  | VNull, VNull => true
  | VBool x, VBool y => Bool.eqb x y
  | VNum x, VNum y => x =? y
  | VStr x, VStr y => (x =? y)%string
  | _, _ => false
  end.

Fixpoint lookup (key : string) (props : list (string * value)) : value :=
  match props with
  | [] => VUndefined
  | (k, v) :: rest => if (k =? key)%string then v else lookup key rest
  end.

(** [v.key] for a [v] that is neither [null] nor [undefined], and for the
    keys the client reads ([code], [data], [expiration], [token_type],
    [token], [name], [id]): none of them is a property of a boolean, a number,
    a string or an array. *)
Definition get_prop (v : value) (key : string) : value :=
  match v with
  | VObj props => lookup key props
  | _ => VUndefined
  end.

(** [v.key] in general: [None] is the [TypeError] of reading a property of
    [null] or [undefined]. *)
Definition get_member (v : value) (key : string) : option value :=
  if nullish v then None else Some (get_prop v key).

(** What [for (let x of v)] visits: the elements of an array, the characters
    of a string; [None] is the [TypeError] of a value that is not iterable. *)
Definition iterate (v : value) : option (list value) :=
  match v with
  | VArr elems => Some elems
  | VStr s => Some (map (fun ch => VStr (String ch EmptyString)) (list_ascii_of_string s))
  | _ => None
  end.

(** ** The declared interfaces *)

Record ITokenInfo : Type := {
  token : string;
  token_type : string;
  expiration : Z
}.

Record IGetEnvResp : Type := {
  env_id : Z;
  env_name : string;
  env_value : string;
  env_remarks : string
}.

(** The JavaScript object a well-typed answer of the service parses to. *)
Definition of_ITokenInfo (t : ITokenInfo) : value :=
  VObj [("token", VStr (token t));
        ("token_type", VStr (token_type t));
        ("expiration", VNum (expiration t))].

Definition of_IGetEnvResp (e : IGetEnvResp) : value :=
  VObj [("id", VNum (env_id e));
        ("name", VStr (env_name e));
        ("value", VStr (env_value e));
        ("remarks", VStr (env_remarks e))].

(** ** axios *)

Record AxiosRequestConfig : Type := {
  method : string;
  url : string;
  headers : value;
  params : value;
  data : value
}.

Record AxiosResponse : Type := {
  status : Z;
  body : value
}.

(** What a JavaScript [throw] carries here: an [Error] made by the client, the
    engine's [TypeError], or the rejection of the transport's promise. *)
Inductive exn : Type :=
| Error (message : string)
| TypeError
| AxiosError (message : string).

Inductive AxiosOutcome : Type :=
| Resolved (resp : AxiosResponse)
| Rejected (e : exn).

(** The instance [axios.create] returns, as the defaults it was given. *)
Record AxiosInstance : Type := {
  default_method : string;
  baseURL : string;
  responseType : string;
  timeout : Z
}.

Definition axios_create (m b r : string) (t : Z) : AxiosInstance :=
  {| default_method := m; baseURL := b; responseType := r; timeout := t |}.

(** ** The client object *)

Record Client : Type := {
  baseUrl : string;
  clientId : string;
  clientSecret : string;
  tokenInfo : value;
  axiosInstance : AxiosInstance
}.

Definition new_Client (baseUrl clientId clientSecret : string) : Client :=
  {| baseUrl := baseUrl;
     clientId := clientId;
     clientSecret := clientSecret;
     axiosInstance := axios_create "GET" baseUrl "json" 3000;
     tokenInfo := VNull |}.

(** [this.tokenInfo = v], the one assignment the methods make. *)
Definition assign_tokenInfo (v : value) (c : Client) : Client :=
  {| baseUrl := baseUrl c;
     clientId := clientId c;
     clientSecret := clientSecret c;
     tokenInfo := v;
     axiosInstance := axiosInstance c |}.

(** ** Programs *)

(** What a method can do besides computing.  [WriteLock], [AxiosRequest] and
    [Await] are the places where an [async] function is suspended. *)
Inductive cmd : Type :=
| GetThis
| SetThis (update : Client -> Client)
| NewRWLock
| WriteLock (lock : nat)
| Unlock (lock : nat)
| AxiosRequest (instance : AxiosInstance) (config : AxiosRequestConfig)
| Await.

Definition reply (c : cmd) : Type :=
  match c with
  | GetThis => Client
  | SetThis _ => unit
  | NewRWLock => nat
  | WriteLock _ => unit
  | Unlock _ => unit
  | AxiosRequest _ _ => AxiosOutcome
  | Await => unit
  end.

Inductive prog (A : Type) : Type :=
| Ret (a : A)
| Throw (e : exn)
| Vis (c : cmd) (k : reply c -> prog A).

Arguments Ret {A} a.
Arguments Throw {A} e.
Arguments Vis {A} c k.

Fixpoint bind {A B : Type} (p : prog A) (f : A -> prog B) : prog B :=
  match p with
  | Ret a => f a
  | Throw e => Throw e
  | Vis c k => Vis c (fun x => bind (k x) f)
  end.

(** [try { p } finally { f }]: [f] runs however [p] ends, and [p]'s result or
    exception stands unless [f] throws. *)
Fixpoint try_finally {A : Type} (p : prog A) (f : prog unit) : prog A :=
  match p with
  | Ret a => bind f (fun _ => Ret a)
  | Throw e => bind f (fun _ => Throw e)
  | Vis c k => Vis c (fun x => try_finally (k x) f)
  end.

Declare Scope prog_scope.
Delimit Scope prog_scope with prog.
Notation "x <- p ;; q" := (bind p (fun x => q))
  (at level 61, p at next level, right associativity) : prog_scope.
Notation "p ;; q" := (bind p (fun _ => q))
  (at level 61, right associativity) : prog_scope.
Local Open Scope prog_scope.

Definition perform (c : cmd) : prog (reply c) := Vis c (fun x => Ret x).

Definition get_this : prog Client := perform GetThis.
Definition set_tokenInfo (v : value) : prog unit := perform (SetThis (assign_tokenInfo v)).
Definition new_RWLock : prog nat := perform NewRWLock.
Definition writeLock (l : nat) : prog unit := perform (WriteLock l).
Definition unlock (l : nat) : prog unit := perform (Unlock l).

(** [await inst.request(config)]: a rejected promise throws at the [await]. *)
Definition axios_call (inst : AxiosInstance) (config : AxiosRequestConfig) : prog AxiosResponse :=
  o <- perform (AxiosRequest inst config) ;;
  match o with
  | Resolved resp => Ret resp
  | Rejected e => Throw e
  end.

(** [await p] for the promise of an [async] method: the caller is resumed in
    a later turn of the event loop, with [p]'s result or exception. *)
Definition await {A : Type} (p : prog A) : prog A := try_finally p (perform Await).

Definition from_option {A : Type} (o : option A) : prog A :=
  match o with
  | Some a => Ret a
  | None => Throw TypeError
  end.

(** How a call ends when it runs alone: with a value, with an exception, or
    never (suspended on a lock nobody releases). *)
Inductive completion (A : Type) : Type :=
| Returned (a : A)
| Thrown (e : exn)
| Blocked.

Arguments Returned {A} a.
Arguments Thrown {A} e.
Arguments Blocked {A}.

Definition settled {A : Type} (r : A + exn) : completion A :=
  match r with
  | inl a => Returned a
  | inr e => Thrown e
  end.

(** ** The methods of [Client] *)

Section Methods.

(** What the JavaScript runtime supplies: the text of a number in a template
    literal, the text [JSON.stringify] gives, and the text of the function
    [url] that line 3 imports from [inspector] (the error messages of
    [request] interpolate that function, not the request's URL). *)
Variable Number_toString : Z -> string.
Variable JSON_stringify : value -> string.
Variable inspector_url : string.

(** An object has a property [key] of its own. *)
Definition has_own (key : string) (props : list (string * value)) : bool :=
  existsb (fun kv => (fst kv =? key)%string) props.

(** [`${v}`]; [None] is the [TypeError] of a value that has no primitive.
    An array is printed by [join]: its elements, [null] and [undefined] as
    the empty string, with commas between.  An object is printed by the
    [toString] of [Object.prototype] unless it has a [toString] of its own:
    what [JSON.parse] put there is not a function, and neither it nor
    [valueOf] gives a primitive then. *)
Fixpoint ToString (v : value) : option string :=
  match v with
  | VUndefined => Some "undefined"
  | VNull => Some "null"
  | VBool true => Some "true"
  | VBool false => Some "false"
  | VNum n => Some (Number_toString n)
  | VStr s => Some s
  | VArr elems =>
      (fix join (xs : list value) : option string :=
         match xs with
         | [] => Some ""
         | x :: rest =>
             match (if nullish x then Some "" else ToString x), join rest with
             | Some a, Some b => Some (match rest with [] => a | _ :: _ => a ++ "," ++ b end)
             | _, _ => None
             end
         end) elems
  | VObj props => if has_own "toString" props then None else Some "[object Object]"
  end.

(** [request], lines 40-56. *)
Definition request (config : AxiosRequestConfig) : prog value :=
  this <- get_this ;;
  resp <- axios_call (axiosInstance this) config ;;
  if (status resp <? 200) || (status resp >=? 300) then
    let respText := body resp in
    text <- from_option (ToString respText) ;;
    Throw (Error ("requestFail: url: " ++ inspector_url ++ ", resp: " ++ text))
  else
    code <- from_option (get_member (body resp) "code") ;;
    data <- from_option (get_member (body resp) "data") ;;
    if negb (strict_equals code (VNum 200)) then
      let dataText := JSON_stringify data in
      text <- from_option (ToString code) ;;
      Throw (Error ("requestFail: url: " ++ inspector_url ++ ", code: " ++ text
                    ++ ", data: " ++ dataText))
    else Ret data.

(** What [request] makes of the transport's answer: the value it returns
    ([inl]) or the exception it throws ([inr]). *)
Definition request_result (o : AxiosOutcome) : value + exn :=
  match o with
  | Rejected e => inr e
  | Resolved resp =>
      if (status resp <? 200) || (status resp >=? 300) then
        match ToString (body resp) with
        | Some text =>
            inr (Error ("requestFail: url: " ++ inspector_url ++ ", resp: " ++ text))
        | None => inr TypeError
        end
      else if nullish (body resp) then inr TypeError
      else if strict_equals (get_prop (body resp) "code") (VNum 200) then
        inl (get_prop (body resp) "data")
      else
        match ToString (get_prop (body resp) "code") with
        | Some text =>
            inr (Error ("requestFail: url: " ++ inspector_url ++ ", code: " ++ text
                        ++ ", data: " ++ JSON_stringify (get_prop (body resp) "data")))
        | None => inr TypeError
        end
  end.

Definition token_config (this : Client) : AxiosRequestConfig :=
  {| method := "GET";
     url := "/open/auth/token";
     headers := VUndefined;
     params := VObj [("client_id", VStr (clientId this));
                     ("client_secret", VStr (clientSecret this))];
     data := VUndefined |}.

(** [doGetToken], lines 58-67. *)
Definition doGetToken : prog value :=
  this <- get_this ;;
  request (token_config this).

(** [tokenInfo && tokenInfo.expiration], the test of lines 71 and 79. *)
Definition cached (tokenInfo : value) : bool :=
  truthy tokenInfo && truthy (get_prop tokenInfo "expiration").

(** [`${tokenInfo.token_type} ${tokenInfo.token}`] for a [tokenInfo] that is
    neither [null] nor [undefined]; [None] is the [TypeError] of a field that
    has no primitive. *)
Definition token_text (tokenInfo : value) : option string :=
  match ToString (get_prop tokenInfo "token_type"), ToString (get_prop tokenInfo "token") with
  | Some token_type, Some token => Some (token_type ++ " " ++ token)
  | _, _ => None
  end.

(** The same as a statement: each field is read, then printed, in turn. *)
Definition token_string (tokenInfo : value) : prog string :=
  token_type <- from_option (get_member tokenInfo "token_type") ;;
  token_type <- from_option (ToString token_type) ;;
  token <- from_option (get_member tokenInfo "token") ;;
  token <- from_option (ToString token) ;;
  Ret (token_type ++ " " ++ token).

(** How a [return] of that template literal ends. *)
Definition token_result (tokenInfo : value) : completion string :=
  match token_text tokenInfo with
  | Some text => Returned text
  | None => Thrown TypeError
  end.

(** [getToken], lines 69-89.  The local variable [tokenInfo] is [info]. *)
Definition getToken : prog string :=
  this <- get_this ;;
  let info := tokenInfo this in
  if cached info then token_string info
  else
    lock <- new_RWLock ;;
    try_finally
      (writeLock lock ;;
       this <- get_this ;;
       let info := tokenInfo this in
       if cached info then token_string info
       else
         fetched <- await doGetToken ;;
         set_tokenInfo fetched ;;
         this <- get_this ;;
         let info := tokenInfo this in
         token_string info)
      (unlock lock).

Definition getEnv_config (name authorization : string) : AxiosRequestConfig :=
  {| method := "GET";
     url := "/open/envs";
     headers := VObj [("Authorization", VStr authorization)];
     params := VObj [("searchValue", VStr name)];
     data := VUndefined |}.

(** The loop of lines 103-109. *)
Fixpoint find_env (name : string) (envs : list value) : prog value :=
  match envs with
  | [] => Throw (Error ("Env '" ++ name ++ "' Not Found"))
  | env :: rest =>
      env_name <- from_option (get_member env "name") ;;
      if strict_equals env_name (VStr name) then Ret env
      else find_env name rest
  end.

(** [getEnv], lines 91-110. *)
Definition getEnv (name : string) : prog value :=
  authorization <- await getToken ;;
  envs <- await (request (getEnv_config name authorization)) ;;
  elems <- from_option (iterate envs) ;;
  find_env name elems.

Definition option_string (o : option string) : value :=
  match o with
  | Some s => VStr s
  | None => VUndefined
  end.

Definition setEnv_config (env : value) (name value_ : string) (remarks : option string)
    (authorization : string) : AxiosRequestConfig :=
  {| method := "PUT";
     url := "/open/envs";
     headers := VObj [("Authorization", VStr authorization);
                      ("Content-Type", VStr "application/json")];
     params := VUndefined;
     data := VObj [("id", get_prop env "id");
                   ("name", VStr name);
                   ("value", VStr value_);
                   ("remarks", option_string remarks)] |}.

(** [setEnv], lines 112-136; [value_] is the parameter [value], and [remarks]
    the optional one. *)
Definition setEnv (name value_ : string) (remarks : option string) : prog value :=
  env <- await (getEnv name) ;;
  if negb (truthy env) then Throw (Error ("Env '" ++ name ++ "' Not Exist"))
  else
    authorization <- await getToken ;;
    request (setEnv_config env name value_ remarks authorization).

End Methods.

(** ** Running programs *)

Section Semantics.

(** The service and the network, as the client sees them: a state of the
    world, and what a call of [instance.request(config)] does to it and ends
    with.  Nothing is assumed of either. *)
Variable W : Type.
Variable axios_request : AxiosInstance -> AxiosRequestConfig -> W -> AxiosOutcome * W.

(** The client object, the locks created so far (held or not), the requests
    handed to the transport so far, and the world. *)
Record state : Type := {
  client : Client;
  locks : list bool;
  calls : list AxiosRequestConfig;
  world : W
}.

Fixpoint set_lock (l : nat) (b : bool) (ls : list bool) : list bool :=
  match ls, l with
  | [], _ => []
  | _ :: rest, O => b :: rest
  | x :: rest, S l' => x :: set_lock l' b rest
  end.

Definition held (l : nat) (s : state) : bool := nth l (locks s) false.

Definition with_client (c : Client) (s : state) : state :=
  {| client := c; locks := locks s; calls := calls s; world := world s |}.

Definition with_locks (ls : list bool) (s : state) : state :=
  {| client := client s; locks := ls; calls := calls s; world := world s |}.

(** One request handed to the transport: it is recorded, and the world
    answers. *)
Definition issue (inst : AxiosInstance) (config : AxiosRequestConfig) (s : state)
    : AxiosOutcome * state :=
  let (o, w) := axios_request inst config (world s) in
  (o, {| client := client s; locks := locks s; calls := (calls s ++ [config])%list; world := w |}).

(** One command; [None] when it cannot proceed yet (a lock that is held). *)
Definition exec (c : cmd) (s : state) : option (reply c * state) :=
  match c as c0 return option (reply c0 * state) with
  | GetThis => Some (client s, s)
  | SetThis update => Some (tt, with_client (update (client s)) s)
  | NewRWLock => Some (List.length (locks s), with_locks (locks s ++ [false])%list s)
  | WriteLock l =>
      if held l s then None
      else Some (tt, with_locks (set_lock l true (locks s)) s)
  | Unlock l => Some (tt, with_locks (set_lock l false (locks s)) s)
  | AxiosRequest inst config => Some (issue inst config s)
  | Await => Some (tt, s)
  end.

(** A call running alone, from its start to its end. *)
Fixpoint run {A : Type} (p : prog A) (s : state) : completion A * state :=
  match p with
  | Ret a => (Returned a, s)
  | Throw e => (Thrown e, s)
  | Vis c k =>
      match exec c s with
      | Some (x, s') => run (k x) s'
      | None => (Blocked, s)
      end
  end.

(** What follows a completed part: its continuation after a return, nothing
    after an exception or a block. *)
Definition and_then {A B : Type} (r : completion A * state)
    (f : A -> state -> completion B * state) : completion B * state :=
  match r with
  | (Returned a, s) => f a s
  | (Thrown e, s) => (Thrown e, s)
  | (Blocked, s) => (Blocked, s)
  end.

(** *** Calls in flight together *)

(** JavaScript runs one call at a time, up to its next [await].  A call
    suspended on a promise that is already settled (a lock it was granted, the
    promise of an [async] method) is resumed from the microtask queue, which
    the event loop empties before it delivers any answer of the network; a
    call suspended on a request is resumed when the answer is delivered. *)

(** The commands at which an [async] function gives the event loop back. *)
Definition suspends (c : cmd) : bool :=
  match c with
  | WriteLock _ | AxiosRequest _ _ | Await => true
  | _ => false
  end.

(** The suspensions that end with an answer of the network. *)
Definition awaits_network (c : cmd) : bool :=
  match c with
  | AxiosRequest _ _ => true
  | _ => false
  end.

(** A call in flight: ended; suspended, with the rest of its body, in the
    microtask queue ([Suspended]) or until the network answers ([Pending]);
    or waiting for a command that cannot proceed yet (a lock that is held). *)
Inductive thread (A : Type) : Type :=
| Fulfilled (a : A)
| Failed (e : exn)
| Suspended (p : prog A)
| Pending (p : prog A)
| Waiting (c : cmd) (k : reply c -> prog A).

Arguments Fulfilled {A} a.
Arguments Failed {A} e.
Arguments Suspended {A} p.
Arguments Pending {A} p.
Arguments Waiting {A} c k.

(** A body runs without interruption up to its next suspension.  A request
    is handed to the transport when the body reaches it; what the world
    answers waits in the continuation until the call is resumed. *)
Fixpoint drive {A : Type} (p : prog A) (s : state) : thread A * state :=
  match p with
  | Ret a => (Fulfilled a, s)
  | Throw e => (Failed e, s)
  | Vis c k =>
      match exec c s with
      | Some (x, s') =>
          if suspends c then
            (if awaits_network c then Pending (k x) else Suspended (k x), s')
          else drive (k x) s'
      | None => (Waiting c k, s)
      end
  end.

(** One call resumed. *)
Definition resume {A : Type} (t : thread A) (s : state) : option (thread A * state) :=
  match t with
  | Suspended p | Pending p => Some (drive p s)
  | Waiting c k =>
      match exec c s with
      | Some (x, s') => Some (drive (k x) s')
      | None => None
      end
  | Fulfilled _ | Failed _ => None
  end.

(** The calls the microtask queue holds: those suspended on a settled
    promise, and those whose lock has become free. *)
Definition ready {A : Type} (t : thread A) (s : state) : bool :=
  match t with
  | Suspended _ => true
  | Waiting c _ => match exec c s with Some _ => true | None => false end
  | Fulfilled _ | Failed _ | Pending _ => false
  end.

Definition pending {A : Type} (t : thread A) : bool :=
  match t with
  | Pending _ => true
  | _ => false
  end.

Definition ended {A : Type} (t : thread A) : bool :=
  match t with
  | Fulfilled _ | Failed _ => true
  | Suspended _ | Pending _ | Waiting _ _ => false
  end.

Fixpoint replace_nth {A : Type} (i : nat) (x : A) (l : list A) : list A :=
  match l, i with
  | [], _ => []
  | _ :: rest, O => x :: rest
  | y :: rest, S i' => y :: replace_nth i' x rest
  end.

(** The event loop resumes call [i]: any call of the microtask queue, or,
    when that queue is empty, a call whose answer the network delivers. *)
Definition step {A : Type} (i : nat) (pool : list (thread A)) (s : state)
    : option (list (thread A) * state) :=
  match nth_error pool i with
  | Some t =>
      if pending t && existsb (fun t' => ready t' s) pool then None
      else
        match resume t s with
        | Some (t', s') => Some (replace_nth i t' pool, s')
        | None => None
        end
  | None => None
  end.

(** The calls resumed in the order [schedule] gives. *)
Fixpoint interleave {A : Type} (schedule : list nat) (pool : list (thread A)) (s : state)
    : option (list (thread A) * state) :=
  match schedule with
  | [] => Some (pool, s)
  | i :: rest =>
      match step i pool s with
      | Some (pool', s') => interleave rest pool' s'
      | None => None
      end
  end.

(** Calling an [async] method: its body runs at once up to its first
    suspension, and the call joins those in flight. *)
Definition spawn {A : Type} (p : prog A) (ps : list (thread A) * state)
    : list (thread A) * state :=
  let (t, s') := drive p (snd ps) in ((fst ps ++ [t])%list, s').

(** A call in flight left to run alone. *)
Definition complete {A : Type} (t : thread A) (s : state) : completion A * state :=
  match t with
  | Fulfilled a => (Returned a, s)
  | Failed e => (Thrown e, s)
  | Suspended p | Pending p => run p s
  | Waiting c k => run (Vis c k) s
  end.

(** *** What a call leaves alone *)

(** The fields the constructor sets and no method assigns. *)
Definition same_settings (c c' : Client) : Prop :=
  baseUrl c' = baseUrl c
  /\ clientId c' = clientId c
  /\ clientSecret c' = clientSecret c
  /\ axiosInstance c' = axiosInstance c.

Definition settings_kept (s s' : state) : Prop :=
  same_settings (client s) (client s').

(** The requests made from [s] to [s'] are all [GET]s. *)
Definition only_gets (s s' : state) : Prop :=
  exists gets : list AxiosRequestConfig,
    calls s' = (calls s ++ gets)%list /\ Forall (fun c => method c = "GET") gets.

(** The locks of [s'] are those of [s], as they were, and after them some
    more that are all free. *)
Definition locks_released (s s' : state) : Prop :=
  exists n : nat, locks s' = (locks s ++ repeat false n)%list.

(** The three requests [setEnv name value_ remarks] can send for the client
    [c]: the token request, the lookup of [name], and the [PUT] for [name]. *)
Definition request_of_setEnv (name value_ : string) (remarks : option string)
    (c : Client) (config : AxiosRequestConfig) : Prop :=
  config = token_config c
  \/ (exists tok, config = getEnv_config name tok)
  \/ (exists env tok, config = setEnv_config env name value_ remarks tok).

(** From [s] to [s'] the settings were kept and every request sent is one of
    those [P] allows the client. *)
Definition sends_only (P : Client -> AxiosRequestConfig -> Prop) (s s' : state) : Prop :=
  same_settings (client s) (client s')
  /\ exists sent : list AxiosRequestConfig,
       calls s' = (calls s ++ sent)%list /\ Forall (P (client s)) sent.

(** [p] keeps [R] between the state it starts in and the one it ends in,
    however it ends. *)
Definition preserves {A : Type} (R : state -> state -> Prop) (p : prog A) : Prop :=
  forall s : state, R s (snd (run p s)).

(** [n] calls of [p], one after the other. *)
Fixpoint repeat_call {A : Type} (n : nat) (p : prog A) : prog (list A) :=
  match n with
  | O => Ret []
  | S n' => x <- p ;; xs <- repeat_call n' p ;; Ret (x :: xs)
  end.

End Semantics.

Arguments client {W} s.
Arguments locks {W} s.
Arguments calls {W} s.
Arguments world {W} s.
Arguments Fulfilled {A} a.
Arguments Failed {A} e.
Arguments Suspended {A} p.
Arguments Pending {A} p.
Arguments Waiting {A} c k.
Arguments ended {A} t.
Arguments held {W} l s.
Arguments with_client {W} c s.
Arguments with_locks {W} ls s.
Arguments issue {W} axios_request inst config s.
Arguments exec {W} axios_request c s.
Arguments run {W} axios_request {A} p s.
Arguments drive {W} axios_request {A} p s.
Arguments resume {W} axios_request {A} t s.
Arguments ready {W} axios_request {A} t s.
Arguments pending {A} t.
Arguments step {W} axios_request {A} i pool s.
Arguments interleave {W} axios_request {A} schedule pool s.
Arguments spawn {W} axios_request {A} p ps.
Arguments complete {W} axios_request {A} t s.
Arguments and_then {W A B} r f.
Arguments settings_kept {W} s s'.
Arguments only_gets {W} s s'.
Arguments locks_released {W} s s'.
Arguments sends_only {W} P s s'.
Arguments preserves {W} axios_request {A} R p.

(** ** A service to run the client against *)

(** A runtime and a service for running the methods on concrete inputs.  The
    world is the number of requests served.  The service hands out the token
    [first] to the first request and [second] afterwards, each with the
    expiration time [exp]; it lists three variables, two of them under the
    same name; it echoes what is [PUT]; and it knows no other path. *)
Definition sample_Number_toString (n : Z) : string :=
  NilZero.string_of_int (Z.to_int n).

(** A stand-in that prints the atoms only; the examples do not depend on the
    text of an error message. *)
Definition sample_JSON_stringify (v : value) : string :=
  match v with
  | VNull => "null"
  | VBool true => "true"
  | VBool false => "false"
  | VNum n => sample_Number_toString n
  | VArr [] => "[]"
  | VObj [] => "{}"
  | _ => "..."
  end.

Definition sample_inspector_url : string := "function url() { [native code] }".

Definition sample_token (exp : Z) (served : nat) : ITokenInfo :=
  {| token := match served with O => "first" | S _ => "second" end;
     token_type := "Bearer";
     expiration := exp |}.

Definition sample_envs : list IGetEnvResp :=
  [ {| env_id := 1; env_name := "JD_COOKIE_BAK"; env_value := "pt_key=0"; env_remarks := "" |};
    {| env_id := 2; env_name := "JD_COOKIE"; env_value := "pt_key=1"; env_remarks := "main" |};
    {| env_id := 3; env_name := "JD_COOKIE"; env_value := "pt_key=2"; env_remarks := "spare" |} ].

Definition sample_response (d : value) : AxiosResponse :=
  {| status := 200; body := VObj [("code", VNum 200); ("data", d)] |}.

Definition sample_ok (d : value) : AxiosOutcome := Resolved (sample_response d).

Definition sample_not_found : AxiosResponse :=
  {| status := 404; body := VStr "Not Found" |}.

Definition sample_service (exp : Z) (inst : AxiosInstance) (config : AxiosRequestConfig)
    (served : nat) : AxiosOutcome * nat :=
  (if (url config =? "/open/auth/token")%string then
     sample_ok (of_ITokenInfo (sample_token exp served))
   else if (url config =? "/open/envs")%string then
     if (method config =? "GET")%string then sample_ok (VArr (map of_IGetEnvResp sample_envs))
     else sample_ok (data config)
   else Resolved sample_not_found,
   S served).

(** A service whose tokens have the expiration time 0 and whose network goes
    down after two requests. *)
Definition sample_flaky (inst : AxiosInstance) (config : AxiosRequestConfig)
    (served : nat) : AxiosOutcome * nat :=
  match served with
  | O | S O => sample_service 0 inst config served
  | S (S _) => (Rejected (AxiosError "timeout of 3000ms exceeded"), S served)
  end.

(** A network that is down. *)
Definition sample_offline (inst : AxiosInstance) (config : AxiosRequestConfig)
    (served : nat) : AxiosOutcome * nat :=
  (Rejected (AxiosError "timeout of 3000ms exceeded"), S served).

Definition sample_client : Client :=
  new_Client "http://localhost:5700" "my-id" "my-secret".

(** A client before its first call. *)
Definition sample_start (c : Client) : state nat :=
  {| client := c; locks := []; calls := []; world := O |}.

(** The methods and interpreters on the sample runtime and service. *)
Definition sample_getToken : prog string :=
  getToken sample_Number_toString sample_JSON_stringify sample_inspector_url.

Definition sample_getEnv : string -> prog value :=
  getEnv sample_Number_toString sample_JSON_stringify sample_inspector_url.

Definition sample_setEnv : string -> string -> option string -> prog value :=
  setEnv sample_Number_toString sample_JSON_stringify sample_inspector_url.

Definition sample_request : AxiosRequestConfig -> prog value :=
  request sample_Number_toString sample_JSON_stringify sample_inspector_url.

Definition sample_run {A : Type} (exp : Z) : prog A -> state nat -> completion A * state nat :=
  run (sample_service exp).

(** A time of day in September 2026, in seconds since 1970, and a token that
    expired in November 2023.  (The sample service is mostly run with
    [exp = 1800000000], in January 2027.) *)
Definition sample_now : Z := 1790000000.

Definition stale_token : ITokenInfo :=
  {| token := "stale"; token_type := "Bearer"; expiration := 1700000000 |}.

(** A request for a path the service does not know. *)
Definition sample_unknown_config : AxiosRequestConfig :=
  {| method := "GET"; url := "/open/nothing"; headers := VUndefined;
     params := VUndefined; data := VUndefined |}.

(** A client holding [t] as its token information, before its next call. *)
Definition sample_holding (t : ITokenInfo) : state nat :=
  sample_start (assign_tokenInfo (of_ITokenInfo t) sample_client).

(** The state the first [getToken] of a new client leaves. *)
Definition sample_after_getToken (exp : Z) : state nat :=
  snd (sample_run exp sample_getToken (sample_start sample_client)).

(** Two calls of [getToken] made together, [Promise.all([c.getToken(),
    c.getToken()])], on a client with nothing cached. *)
Definition two_getTokens (exp : Z) : list (thread string) * state nat :=
  spawn (sample_service exp) sample_getToken
    (spawn (sample_service exp) sample_getToken ([], sample_start sample_client)).

(** A service that answers every request with [code: 200] and the data [d],
    whatever is asked. *)
Definition sample_always (d : value) (inst : AxiosInstance) (config : AxiosRequestConfig)
    (served : nat) : AxiosOutcome * nat :=
  (sample_ok d, S served).

(** The sample service with [listing] as its answer to the lookup. *)
Definition sample_listing (listing : value) (inst : AxiosInstance)
    (config : AxiosRequestConfig) (served : nat) : AxiosOutcome * nat :=
  (if (url config =? "/open/auth/token")%string then
     sample_ok (of_ITokenInfo (sample_token 1800000000 served))
   else sample_ok listing,
   S served).

(** Which of the two calls the event loop resumes. *)
Definition which_call (second : bool) : nat := if second then 1%nat else 0%nat.

(** * Properties *)

Section Properties.

Variable Number_toString : Z -> string.
Variable JSON_stringify : value -> string.
Variable inspector_url : string.
Variable W : Type.
Variable axios_request : AxiosInstance -> AxiosRequestConfig -> W -> AxiosOutcome * W.

Local Abbreviation state := (state W).
Local Abbreviation run := (run axios_request).
Local Abbreviation issue := (issue axios_request).
Local Abbreviation preserves := (preserves axios_request).
Local Abbreviation request := (request Number_toString JSON_stringify inspector_url).
Local Abbreviation doGetToken := (doGetToken Number_toString JSON_stringify inspector_url).
Local Abbreviation getToken := (getToken Number_toString JSON_stringify inspector_url).
Local Abbreviation getEnv := (getEnv Number_toString JSON_stringify inspector_url).
Local Abbreviation setEnv := (setEnv Number_toString JSON_stringify inspector_url).
Local Abbreviation ToString := (ToString Number_toString).
Local Abbreviation token_text := (token_text Number_toString).
Local Abbreviation token_string := (token_string Number_toString).
Local Abbreviation token_result := (token_result Number_toString).
Local Abbreviation request_result := (request_result Number_toString JSON_stringify inspector_url).

(** ** How [run] goes through the combinators *)

Lemma run_bind {A B : Type} (p : prog A) (f : A -> prog B) (s : state) :
  run (bind p f) s = and_then (run p s) (fun a s' => run (f a) s').
Proof.
  revert s; induction p as [a | e | c k IH]; intros s; simpl; try reflexivity.
  destruct (exec axios_request c s) as [[x s'] | ]; [apply IH | reflexivity].
Qed.

Lemma run_try_finally {A : Type} (p : prog A) (f : prog unit) (s : state) :
  run (try_finally p f) s =
  match run p s with
  | (Returned a, s') => run (f ;; Ret a) s'
  | (Thrown e, s') => run (f ;; Throw e) s'
  | (Blocked, s') => (Blocked, s')
  end.
Proof.
  revert s; induction p as [a | e | c k IH]; intros s; simpl; try reflexivity.
  destruct (exec axios_request c s) as [[x s'] | ]; [apply IH | reflexivity].
Qed.

Lemma run_await {A : Type} (p : prog A) (s : state) :
  run (await p) s = run p s.
Proof.
  unfold await; rewrite run_try_finally.
  destruct (run p s) as [[a | e | ] s']; reflexivity.
Qed.

Lemma run_from_option {A : Type} (o : option A) (s : state) :
  run (from_option o) s =
  (match o with Some a => Returned a | None => Thrown TypeError end, s).
Proof. destruct o; reflexivity. Qed.

(** Suspending a call and resuming it alone is running it through. *)
Lemma complete_drive {A : Type} (p : prog A) (s : state) :
  let (t, s') := drive axios_request p s in complete axios_request t s' = run p s.
Proof.
  revert s; induction p as [a | e | c k IH]; intros s; simpl; try reflexivity.
  destruct (exec axios_request c s) as [[x s'] | ] eqn:E.
  - destruct (suspends c); [destruct (awaits_network c); reflexivity | apply IH].
  - simpl. rewrite E. reflexivity.
Qed.

Lemma run_get_this (s : state) : run get_this s = (Returned (client s), s).
Proof. reflexivity. Qed.

Lemma run_set_tokenInfo (v : value) (s : state) :
  run (set_tokenInfo v) s = (Returned tt, with_client (assign_tokenInfo v (client s)) s).
Proof. reflexivity. Qed.

Lemma run_new_RWLock (s : state) :
  run new_RWLock s =
  (Returned (List.length (locks s)), with_locks (locks s ++ [false])%list s).
Proof. reflexivity. Qed.

Lemma run_writeLock (l : nat) (s : state) :
  run (writeLock l) s =
  if held l s then (Blocked, s)
  else (Returned tt, with_locks (set_lock l true (locks s)) s).
Proof. unfold writeLock, perform; simpl. destruct (held l s); reflexivity. Qed.

Lemma run_unlock (l : nat) (s : state) :
  run (unlock l) s = (Returned tt, with_locks (set_lock l false (locks s)) s).
Proof. reflexivity. Qed.

Lemma run_ret {A : Type} (a : A) (s : state) : run (Ret a) s = (Returned a, s).
Proof. reflexivity. Qed.

Lemma run_throw {A : Type} (e : exn) (s : state) : run (@Throw A e) s = (Thrown e, s).
Proof. reflexivity. Qed.

Create Rewrite HintDb run.
#[local] Hint Rewrite @run_bind @run_try_finally @run_await @run_from_option
  run_get_this run_set_tokenInfo run_new_RWLock run_writeLock run_unlock
  @run_ret @run_throw : run.

Ltac run_simpl :=
  repeat progress (autorewrite with run;
                   cbn [and_then client locks calls world with_client with_locks]).

(** ** [request] *)

Lemma run_request (config : AxiosRequestConfig) (s : state) :
  run (request config) s =
  let (o, s') := issue (axiosInstance (client s)) config s in
  (settled (request_result o), s').
Proof.
  unfold request, axios_call, get_this, perform. simpl.
  destruct (issue (axiosInstance (client s)) config s) as [[resp | e] s']; simpl;
    [ | reflexivity].
  destruct ((status resp <? 200) || (status resp >=? 300)); simpl.
  { destruct (ToString (body resp)); reflexivity. }
  unfold get_member.
  destruct (nullish (body resp)); simpl; [reflexivity | ].
  destruct (strict_equals (get_prop (body resp) "code") (VNum 200)); simpl;
    [reflexivity | ].
  destruct (ToString (get_prop (body resp) "code")); reflexivity.
Qed.

(** ** Locks *)

Lemma held_new_lock (ls : list bool) :
  nth (List.length ls) (ls ++ [false])%list false = false.
Proof. induction ls as [ | x ls IH]; [reflexivity | exact IH]. Qed.

Lemma set_lock_last (b x : bool) (ls : list bool) :
  set_lock (List.length ls) b (ls ++ [x])%list = (ls ++ [b])%list.
Proof.
  induction ls as [ | y ls IH]; [reflexivity | ].
  simpl. now rewrite IH.
Qed.

(** ** [getToken] *)

Lemma truthy_not_nullish (v : value) : truthy v = true -> nullish v = false.
Proof. destruct v; simpl; congruence. Qed.

Lemma cached_not_nullish (v : value) : cached v = true -> nullish v = false.
Proof.
  unfold cached; intros H; apply andb_prop in H; apply truthy_not_nullish, H.
Qed.

Lemma run_token_string (v : value) (s : state) :
  run (token_string v) s =
  (if nullish v then Thrown TypeError else token_result v, s).
Proof.
  unfold token_string, get_member, token_result, token_text.
  destruct (nullish v); [reflexivity | ]. cbn [from_option bind].
  destruct (ToString (get_prop v "token_type")); [ | reflexivity]. cbn [from_option bind].
  destruct (ToString (get_prop v "token")); reflexivity.
Qed.

Lemma run_getToken_cached (s : state) :
  cached (tokenInfo (client s)) = true ->
  run getToken s = (token_result (tokenInfo (client s)), s).
Proof.
  intros H. unfold getToken, get_this, perform. simpl.
  rewrite H, run_token_string, (cached_not_nullish _ H). reflexivity.
Qed.

Lemma run_doGetToken (s : state) :
  run doGetToken s = run (request (token_config (client s))) s.
Proof. unfold doGetToken. now run_simpl. Qed.

Lemma run_getToken_fetch (s : state) :
  cached (tokenInfo (client s)) = false ->
  run getToken s =
  let (o, s1) := issue (axiosInstance (client s)) (token_config (client s)) s in
  let s2 := with_locks (locks s ++ [false])%list s1 in
  match request_result o with
  | inl fetched =>
      (if nullish fetched then Thrown TypeError else token_result fetched,
       with_client (assign_tokenInfo fetched (client s)) s2)
  | inr e => (Thrown e, s2)
  end.
Proof.
  intros H. unfold getToken. run_simpl. rewrite H. run_simpl.
  unfold held; cbn [locks with_locks]. rewrite held_new_lock. run_simpl.
  rewrite H. run_simpl. rewrite run_doGetToken, run_request.
  unfold issue; cbn [client world locks calls with_locks].
  destruct (axios_request _ _ (world s)) as [o w].
  destruct (request_result o) as [fetched | e]; cbn [settled]; run_simpl;
    rewrite ?run_token_string; cbn [tokenInfo assign_tokenInfo client].
  - unfold token_result.
    destruct (nullish fetched); [ | destruct (token_text fetched)];
      run_simpl; rewrite !set_lock_last; reflexivity.
  - run_simpl. rewrite !set_lock_last. reflexivity.
Qed.

(** A call of [getToken] that returns has returned what [tokenInfo] now
    holds, whichever way it went. *)
Lemma getToken_returns_stored (s s' : state) (tok : string) :
  run getToken s = (Returned tok, s') -> token_text (tokenInfo (client s')) = Some tok.
Proof.
  destruct (cached (tokenInfo (client s))) eqn:H.
  - rewrite (run_getToken_cached _ H). unfold token_result.
    destruct (token_text (tokenInfo (client s))) eqn:E; [ | discriminate].
    now intros [= <- <-].
  - rewrite (run_getToken_fetch _ H).
    destruct (issue _ _ s) as [o s1]. cbv zeta.
    destruct (request_result o) as [fetched | e]; [ | discriminate].
    destruct (nullish fetched); [discriminate | ]. unfold token_result.
    destruct (token_text fetched) eqn:E; [ | discriminate].
    now intros [= <- <-].
Qed.

(** *** Well-typed token information *)

Lemma cached_of_ITokenInfo (t : ITokenInfo) :
  cached (of_ITokenInfo t) = negb (expiration t =? 0).
Proof. reflexivity. Qed.

Lemma token_text_of_ITokenInfo (t : ITokenInfo) :
  token_text (of_ITokenInfo t) = Some (token_type t ++ " " ++ token t).
Proof. reflexivity. Qed.

Lemma not_cached (v : value) :
  v = VNull \/ (exists old, v = of_ITokenInfo old /\ expiration old = 0) ->
  cached v = false.
Proof.
  intros [-> | [old [-> H]]]; [reflexivity | ].
  rewrite cached_of_ITokenInfo, H. reflexivity.
Qed.

Lemma is_cached (t : ITokenInfo) : expiration t <> 0 -> cached (of_ITokenInfo t) = true.
Proof.
  intros H. rewrite cached_of_ITokenInfo. apply negb_true_iff, Z.eqb_neq, H.
Qed.

Lemma get_member_some (v x : value) (key : string) :
  get_member v key = Some x -> nullish v = false /\ get_prop v key = x.
Proof.
  unfold get_member. destruct (nullish v); [discriminate | ].
  now intros [= ->].
Qed.

Lemma strict_equals_200 (v : value) :
  strict_equals v (VNum 200) = true <-> v = VNum 200.
Proof.
  split; [ | now intros ->].
  destruct v; simpl; try discriminate.
  intros H; apply Z.eqb_eq in H; now subst.
Qed.

(** A 2xx answer whose body carries [code: 200] is returned as its [data]. *)
Lemma request_result_ok (resp : AxiosResponse) (x : value) :
  200 <= status resp < 300 ->
  get_member (body resp) "code" = Some (VNum 200) ->
  get_member (body resp) "data" = Some x ->
  request_result (Resolved resp) = inl x.
Proof.
  intros Hst Hc Hd. unfold request_result.
  replace ((status resp <? 200) || (status resp >=? 300)) with false
    by (symmetry; apply orb_false_iff; split; lia).
  apply get_member_some in Hc as [Hn Hc]. apply get_member_some in Hd as [_ Hd].
  rewrite Hn, Hc, Hd. reflexivity.
Qed.

(** C1.  When [getToken] is called with no valid token cached ([tokenInfo] is
    [null], or its [expiration] is 0) and the service answers the token
    request with token information, the call has made that one request, a
    [GET] of [/open/auth/token] with the client's [client_id] and
    [client_secret], which is the request of [doGetToken]; it has stored
    the answer's token information in [tokenInfo]; and it returns the fetched
    [token_type], a space, and the fetched [token]. *)
Theorem getToken_fetches_and_stores
    (s : state) (resp : AxiosResponse) (fetched : ITokenInfo) (w' : W) :
  tokenInfo (client s) = VNull
    \/ (exists old, tokenInfo (client s) = of_ITokenInfo old /\ expiration old = 0) ->
  axios_request (axiosInstance (client s)) (token_config (client s)) (world s)
    = (Resolved resp, w') ->
  200 <= status resp < 300 ->
  get_member (body resp) "code" = Some (VNum 200) ->
  get_member (body resp) "data" = Some (of_ITokenInfo fetched) ->
  run getToken s =
    (Returned (token_type fetched ++ " " ++ token fetched),
     {| client := assign_tokenInfo (of_ITokenInfo fetched) (client s);
        locks := (locks s ++ [false])%list;
        calls := (calls s ++ [token_config (client s)])%list;
        world := w' |})
  /\ run doGetToken s =
    (Returned (of_ITokenInfo fetched),
     {| client := client s;
        locks := locks s;
        calls := (calls s ++ [token_config (client s)])%list;
        world := w' |})
  /\ method (token_config (client s)) = "GET"
  /\ url (token_config (client s)) = "/open/auth/token"
  /\ params (token_config (client s))
      = VObj [("client_id", VStr (clientId (client s)));
              ("client_secret", VStr (clientSecret (client s)))].
Proof.
  intros Hno Hax Hst Hc Hd.
  pose proof (request_result_ok _ _ Hst Hc Hd) as Hres.
  repeat split.
  - rewrite (run_getToken_fetch _ (not_cached _ Hno)).
    unfold issue. rewrite Hax. cbv zeta. rewrite Hres.
    reflexivity.
  - rewrite run_doGetToken, run_request. unfold issue.
    rewrite Hax, Hres. reflexivity.
Qed.

Lemma run_repeat_cached (s : state) (tok : string) (n : nat) :
  cached (tokenInfo (client s)) = true ->
  token_text (tokenInfo (client s)) = Some tok ->
  run (repeat_call n getToken) s = (Returned (repeat tok n), s).
Proof.
  intros H Htok. induction n as [ | n IH]; [reflexivity | ].
  cbn [repeat_call repeat]. run_simpl. rewrite (run_getToken_cached _ H).
  unfold token_result. rewrite Htok. run_simpl. rewrite IH. reflexivity.
Qed.

(** C2, as amended.  In every state in which [tokenInfo] holds token
    information with a nonzero [expiration], [getToken] returns the cached
    [token_type] and [token] joined by a space, and leaves the whole state as
    it was: no request is made and [tokenInfo] is not touched.  Hence, when a
    call of [getToken] has returned and left such token information, every
    later call returns the same string with no further fetch. *)
Theorem getToken_cache_hit (s : state) (t : ITokenInfo) :
  tokenInfo (client s) = of_ITokenInfo t ->
  expiration t <> 0 ->
  run getToken s = (Returned (token_type t ++ " " ++ token t), s)
  /\ forall (s0 : state) (tok : string),
       run getToken s0 = (Returned tok, s) ->
       forall n : nat, run (repeat_call n getToken) s = (Returned (repeat tok n), s).
Proof.
  intros Ht Hexp.
  assert (H : cached (tokenInfo (client s)) = true) by (rewrite Ht; now apply is_cached).
  split.
  - rewrite (run_getToken_cached _ H), Ht. reflexivity.
  - intros s0 tok Hrun n.
    apply run_repeat_cached; [exact H | exact (getToken_returns_stored _ _ _ Hrun)].
Qed.

(** C3, as amended.  [getToken] never looks at a clock.  It makes the token
    request exactly when nothing is cached ([tokenInfo] is [null]) or the
    cached [expiration] is 0; a cached token whose [expiration] is any other
    number is returned as it is, with no request, whether or not that time
    lies before [now]. *)
Theorem getToken_refresh_rule (s : state) :
  (forall (t : ITokenInfo) (now : Z),
      tokenInfo (client s) = of_ITokenInfo t ->
      expiration t <> 0 ->
      expiration t < now ->
      run getToken s = (Returned (token_type t ++ " " ++ token t), s))
  /\ (tokenInfo (client s) = VNull
        \/ (exists old, tokenInfo (client s) = of_ITokenInfo old /\ expiration old = 0) ->
      calls (snd (run getToken s)) = (calls s ++ [token_config (client s)])%list).
Proof.
  split.
  - intros t now Ht Hexp _.
    assert (H : cached (tokenInfo (client s)) = true) by (rewrite Ht; now apply is_cached).
    rewrite (run_getToken_cached _ H), Ht. reflexivity.
  - intros Hno. rewrite (run_getToken_fetch _ (not_cached _ Hno)).
    unfold issue. destruct (axios_request _ _ (world s)) as [o w].
    cbv zeta. destruct (request_result o); reflexivity.
Qed.

(** ** The envelope of [request] *)

Lemma request_result_throws (resp : AxiosResponse) :
  (exists e, request_result (Resolved resp) = inr e) <->
  (status resp < 200 \/ 300 <= status resp
   \/ get_member (body resp) "code" <> Some (VNum 200)).
Proof.
  unfold request_result, get_member.
  destruct (status resp <? 200) eqn:Hlo; cbn [orb].
  { apply Z.ltb_lt in Hlo. split; [intros _; now left | intros _].
    destruct (ToString (body resp)); eauto. }
  apply Z.ltb_ge in Hlo.
  destruct (status resp >=? 300) eqn:Hhi.
  { apply Z.geb_le in Hhi. split; [intros _; right; now left | intros _].
    destruct (ToString (body resp)); eauto. }
  assert (Hlt : status resp < 300).
  { destruct (Z_lt_ge_dec (status resp) 300) as [ | Hge]; [assumption | ].
    apply Z.ge_le, Z.geb_le in Hge. congruence. }
  destruct (nullish (body resp)).
  { split; [intros _; right; right; discriminate | intros _; eauto]. }
  destruct (strict_equals (get_prop (body resp) "code") (VNum 200)) eqn:Hc.
  - apply strict_equals_200 in Hc. rewrite Hc. split.
    + intros [e He]; discriminate.
    + intros [H | [H | H]]; [lia | lia | congruence].
  - split; [ | intros _; destruct (ToString (get_prop (body resp) "code")); eauto].
    intros _. right; right. intros [= H].
    apply strict_equals_200 in H. congruence.
Qed.

(** C4.  Given the transport's response, [request] throws exactly when the
    response's status is outside [200, 300) or the body's [code] is not the
    number 200 (a body that has no [code] to read included); otherwise it
    returns the body's [data]. *)
Theorem request_throws_iff
    (config : AxiosRequestConfig) (s : state) (resp : AxiosResponse) (w' : W) :
  axios_request (axiosInstance (client s)) config (world s) = (Resolved resp, w') ->
  ((exists e, fst (run (request config) s) = Thrown e) <->
   (status resp < 200 \/ 300 <= status resp
    \/ get_member (body resp) "code" <> Some (VNum 200)))
  /\ (200 <= status resp < 300 ->
      get_member (body resp) "code" = Some (VNum 200) ->
      fst (run (request config) s) = Returned (get_prop (body resp) "data")).
Proof.
  intros Hax. rewrite run_request. unfold issue. rewrite Hax. cbn [fst].
  split.
  - rewrite <- request_result_throws.
    destruct (request_result (Resolved resp)) as [x | e]; cbn [settled].
    + split; intros [e He]; discriminate.
    + split; intros _; eauto.
  - intros Hst Hc.
    assert (Hd : get_member (body resp) "data" = Some (get_prop (body resp) "data")).
    { unfold get_member in *. destruct (nullish (body resp)); [discriminate | reflexivity]. }
    rewrite (request_result_ok _ _ Hst Hc Hd). reflexivity.
Qed.

(** C5.  One call of [request] hands its configuration to the transport
    exactly once, whatever the outcome: the record of calls grows by that one
    entry, the world has moved by that one call of the transport, and the
    result is made of that call's outcome alone.  A rejection of the
    transport is thrown as it is, and so is the error for a status outside
    2xx or a [code] other than 200: nothing is tried again. *)
Theorem request_issues_one_call (config : AxiosRequestConfig) (s : state) :
  let answer := axios_request (axiosInstance (client s)) config (world s) in
  run (request config) s =
    (settled (request_result (fst answer)),
     {| client := client s;
        locks := locks s;
        calls := (calls s ++ [config])%list;
        world := snd answer |})
  /\ (forall e, fst answer = Rejected e -> fst (run (request config) s) = Thrown e)
  /\ (forall resp, fst answer = Resolved resp ->
        status resp < 200 \/ 300 <= status resp
          \/ get_member (body resp) "code" <> Some (VNum 200) ->
        exists e, fst (run (request config) s) = Thrown e).
Proof.
  intros answer.
  assert (Hrun : run (request config) s =
    (settled (request_result (fst answer)),
     {| client := client s; locks := locks s;
        calls := (calls s ++ [config])%list; world := snd answer |})).
  { rewrite run_request. unfold issue. subst answer.
    destruct (axios_request _ _ (world s)) as [o w]. reflexivity. }
  rewrite Hrun. cbn [fst]. repeat split.
  - intros e ->. reflexivity.
  - intros resp -> H. apply request_result_throws in H as [e He].
    exists e. rewrite He. reflexivity.
Qed.

(** ** What every call leaves alone *)

Section Preserved.

Variable R : state -> state -> Prop.
Hypothesis R_refl : forall s, R s s.
Hypothesis R_trans : forall s1 s2 s3, R s1 s2 -> R s2 s3 -> R s1 s3.

Lemma preserves_ret {A : Type} (a : A) : preserves R (Ret a).
Proof. intros s. apply R_refl. Qed.

Lemma preserves_throw {A : Type} (e : exn) : preserves R (@Throw A e).
Proof. intros s. apply R_refl. Qed.

Lemma preserves_bind {A B : Type} (p : prog A) (f : A -> prog B) :
  preserves R p -> (forall a, preserves R (f a)) -> preserves R (bind p f).
Proof.
  intros Hp Hf s. rewrite run_bind. specialize (Hp s).
  destruct (run p s) as [[a | e | ] s1]; cbn [and_then snd] in *; try assumption.
  eapply R_trans; [exact Hp | apply Hf].
Qed.

Lemma preserves_try_finally {A : Type} (p : prog A) (f : prog unit) :
  preserves R p -> preserves R f -> preserves R (try_finally p f).
Proof.
  intros Hp Hf s. rewrite run_try_finally. specialize (Hp s).
  destruct (run p s) as [[a | e | ] s1]; cbn [snd] in *; try assumption.
  - eapply R_trans; [exact Hp | ].
    apply preserves_bind; [exact Hf | intros; apply preserves_ret].
  - eapply R_trans; [exact Hp | ].
    apply preserves_bind; [exact Hf | intros; apply preserves_throw].
Qed.

Lemma preserves_from_option {A : Type} (o : option A) : preserves R (from_option o).
Proof. destruct o; [apply preserves_ret | apply preserves_throw]. Qed.

Lemma preserves_get_this : preserves R get_this.
Proof. intros s. apply R_refl. Qed.

Lemma preserves_await_tick : preserves R (perform Await).
Proof. intros s. apply R_refl. Qed.

Lemma preserves_await {A : Type} (p : prog A) : preserves R p -> preserves R (await p).
Proof. intros Hp. apply preserves_try_finally; [exact Hp | apply preserves_await_tick]. Qed.

Lemma preserves_find_env (name : string) (elems : list value) :
  preserves R (find_env name elems).
Proof.
  induction elems as [ | env rest IH]; [apply preserves_throw | ].
  cbn [find_env]. apply preserves_bind; [apply preserves_from_option | ].
  intros v. destruct (strict_equals v (VStr name)); [apply preserves_ret | exact IH].
Qed.

(** What [R] has to allow: the commands of the lock, the one assignment, and
    the requests. *)
Hypothesis R_locks : forall s ls, R s (with_locks ls s).
Hypothesis R_assign : forall s v, R s (with_client (assign_tokenInfo v (client s)) s).

Lemma preserves_token_string (v : value) : preserves R (token_string v).
Proof.
  unfold token_string.
  apply preserves_bind; [apply preserves_from_option | intros a].
  apply preserves_bind; [apply preserves_from_option | intros a'].
  apply preserves_bind; [apply preserves_from_option | intros b].
  apply preserves_bind; [apply preserves_from_option | intros b'].
  apply preserves_ret.
Qed.

Lemma preserves_getToken :
  preserves R doGetToken -> preserves R getToken.
Proof.
  intros Hfetch. unfold getToken.
  apply preserves_bind; [apply preserves_get_this | intros this].
  destruct (cached (tokenInfo this)); [apply preserves_token_string | ].
  apply preserves_bind; [intros s; apply R_locks | intros lock].
  apply preserves_try_finally; [ | intros s; apply R_locks].
  apply preserves_bind.
  { intros s. rewrite run_writeLock. destruct (held lock s); [apply R_refl | apply R_locks]. }
  intros _. apply preserves_bind; [apply preserves_get_this | intros this'].
  destruct (cached (tokenInfo this')); [apply preserves_token_string | ].
  apply preserves_bind; [apply preserves_await, Hfetch | intros fetched].
  apply preserves_bind; [intros s; apply R_assign | intros _].
  apply preserves_bind; [apply preserves_get_this | intros this''].
  apply preserves_token_string.
Qed.

Lemma preserves_getEnv (name : string) :
  preserves R getToken ->
  (forall tok, preserves R (request (getEnv_config name tok))) ->
  preserves R (getEnv name).
Proof.
  intros Htok Hreq. unfold getEnv.
  apply preserves_bind; [apply preserves_await, Htok | intros tok].
  apply preserves_bind; [apply preserves_await, Hreq | intros envs].
  apply preserves_bind; [apply preserves_from_option | intros elems].
  apply preserves_find_env.
Qed.

End Preserved.

Lemma settings_kept_refl (s : state) : settings_kept s s.
Proof. repeat split. Qed.

Lemma settings_kept_trans (s1 s2 s3 : state) :
  settings_kept s1 s2 -> settings_kept s2 s3 -> settings_kept s1 s3.
Proof.
  unfold settings_kept, same_settings.
  intros (? & ? & ? & ?) (? & ? & ? & ?). repeat split; congruence.
Qed.

Lemma only_gets_refl (s : state) : only_gets s s.
Proof. exists []. split; [now rewrite app_nil_r | constructor]. Qed.

Lemma only_gets_trans (s1 s2 s3 : state) :
  only_gets s1 s2 -> only_gets s2 s3 -> only_gets s1 s3.
Proof.
  intros (g1 & E1 & F1) (g2 & E2 & F2). exists (g1 ++ g2)%list. split.
  - rewrite E2, E1, app_assoc. reflexivity.
  - apply Forall_app. now split.
Qed.

Lemma request_keeps_settings (config : AxiosRequestConfig) :
  preserves settings_kept (request config).
Proof.
  intros s. rewrite run_request. unfold issue.
  destruct (axios_request _ _ (world s)) as [o w]. repeat split.
Qed.

Lemma request_only_gets (config : AxiosRequestConfig) :
  method config = "GET" -> preserves only_gets (request config).
Proof.
  intros Hm s. rewrite run_request. unfold issue.
  destruct (axios_request _ _ (world s)) as [o w]. cbn [snd].
  exists [config]. split; [reflexivity | now repeat constructor].
Qed.

Lemma doGetToken_keeps_settings : preserves settings_kept doGetToken.
Proof. intros s. rewrite run_doGetToken. apply request_keeps_settings. Qed.

Lemma doGetToken_only_gets : preserves only_gets doGetToken.
Proof. intros s. rewrite run_doGetToken. now apply request_only_gets. Qed.

Lemma getToken_keeps_settings : preserves settings_kept getToken.
Proof.
  apply preserves_getToken.
  - exact settings_kept_refl.
  - exact settings_kept_trans.
  - intros s ls. repeat split.
  - intros s v. repeat split.
  - exact doGetToken_keeps_settings.
Qed.

Lemma getToken_only_gets : preserves only_gets getToken.
Proof.
  apply preserves_getToken.
  - exact only_gets_refl.
  - exact only_gets_trans.
  - intros s ls. apply (only_gets_refl (with_locks ls s)).
  - intros s v. apply (only_gets_refl (with_client (assign_tokenInfo v (client s)) s)).
  - exact doGetToken_only_gets.
Qed.

Lemma getEnv_keeps_settings (name : string) : preserves settings_kept (getEnv name).
Proof.
  apply preserves_getEnv.
  - exact settings_kept_refl.
  - exact settings_kept_trans.
  - exact getToken_keeps_settings.
  - intros tok. apply request_keeps_settings.
Qed.

Lemma getEnv_only_gets (name : string) : preserves only_gets (getEnv name).
Proof.
  apply preserves_getEnv.
  - exact only_gets_refl.
  - exact only_gets_trans.
  - exact getToken_only_gets.
  - intros tok. now apply request_only_gets.
Qed.

(** ** [getEnv] *)

Lemma run_getEnv (name : string) (s : state) :
  run (getEnv name) s =
  and_then (run getToken s) (fun authorization s1 =>
  and_then (run (request (getEnv_config name authorization)) s1) (fun envs s2 =>
  and_then (run (from_option (iterate envs)) s2) (fun elems s3 =>
  run (find_env name elems) s3))).
Proof.
  unfold getEnv. run_simpl.
  destruct (run getToken s) as [[tok | e | ] s1]; cbn [and_then]; try reflexivity.
  run_simpl.
  destruct (run (request (getEnv_config name tok)) s1) as [[envs | e | ] s2];
    cbn [and_then]; try reflexivity.
  run_simpl. destruct (iterate envs); reflexivity.
Qed.

Lemma strict_equals_string (v : value) (name : string) :
  strict_equals v (VStr name) = true <-> v = VStr name.
Proof.
  split; [ | intros ->; simpl; apply String.eqb_refl].
  destruct v; simpl; try discriminate.
  intros H; apply String.eqb_eq in H; now subst.
Qed.

(** The loop over well-typed records is [find] on their names. *)
Lemma run_find_env_records (name : string) (records : list IGetEnvResp) (s : state) :
  run (find_env name (map of_IGetEnvResp records)) s =
  (match find (fun r => (env_name r =? name)%string) records with
   | Some r => Returned (of_IGetEnvResp r)
   | None => Thrown (Error ("Env '" ++ name ++ "' Not Found"))
   end, s).
Proof.
  induction records as [ | r rest IH]; [reflexivity | ].
  cbn [map find find_env]. run_simpl.
  change (get_member (of_IGetEnvResp r) "name") with (Some (VStr (env_name r))).
  run_simpl. cbn [strict_equals].
  destruct (env_name r =? name)%string; [reflexivity | exact IH].
Qed.

(** Whatever the list holds, what the loop returns is one of its elements,
    an object whose [name] is the name asked for. *)
Lemma find_env_returns (name : string) (elems : list value) (s s' : state) (v : value) :
  run (find_env name elems) s = (Returned v, s') ->
  In v elems /\ get_prop v "name" = VStr name /\ truthy v = true.
Proof.
  induction elems as [ | env rest IH]; [discriminate | ].
  cbn [find_env]. run_simpl. unfold get_member.
  destruct (nullish env) eqn:Hn; run_simpl; [discriminate | ].
  destruct (strict_equals (get_prop env "name") (VStr name)) eqn:He; run_simpl.
  - intros [= <- <-]. apply strict_equals_string in He.
    split; [now left | split; [exact He | ]].
    destruct env; try discriminate; reflexivity.
  - intros H. destruct (IH H) as (Hin & Hname & Ht). split; [now right | now split].
Qed.

(** C6.  For every [name], once the token is at hand [getEnv] sends one
    [GET] of [/open/envs] with [searchValue] set to [name] and the token as
    [Authorization]; when the service answers with a list of records,
    [getEnv] returns the first record whose [name] is exactly [name], and
    when no record of the list has that name it throws the error whose
    message is [Env '<name>' Not Found]. *)
Theorem getEnv_first_match
    (name : string) (s s1 : state) (tok : string)
    (resp : AxiosResponse) (w2 : W) (records : list IGetEnvResp) :
  run getToken s = (Returned tok, s1) ->
  axios_request (axiosInstance (client s1)) (getEnv_config name tok) (world s1)
    = (Resolved resp, w2) ->
  200 <= status resp < 300 ->
  get_member (body resp) "code" = Some (VNum 200) ->
  get_member (body resp) "data" = Some (VArr (map of_IGetEnvResp records)) ->
  run (getEnv name) s =
    (match find (fun r => (env_name r =? name)%string) records with
     | Some r => Returned (of_IGetEnvResp r)
     | None => Thrown (Error ("Env '" ++ name ++ "' Not Found"))
     end,
     {| client := client s1;
        locks := locks s1;
        calls := (calls s1 ++ [getEnv_config name tok])%list;
        world := w2 |})
  /\ method (getEnv_config name tok) = "GET"
  /\ url (getEnv_config name tok) = "/open/envs"
  /\ params (getEnv_config name tok) = VObj [("searchValue", VStr name)].
Proof.
  intros Htok Hax Hst Hc Hd. repeat split.
  rewrite run_getEnv, Htok. cbn [and_then].
  rewrite run_request. unfold issue. rewrite Hax.
  rewrite (request_result_ok _ _ Hst Hc Hd). cbn [settled and_then iterate].
  run_simpl. apply run_find_env_records.
Qed.

(** ** [setEnv] *)

Lemma run_setEnv (name value_ : string) (remarks : option string) (s : state) :
  run (setEnv name value_ remarks) s =
  and_then (run (getEnv name) s) (fun env s1 =>
    if negb (truthy env) then (Thrown (Error ("Env '" ++ name ++ "' Not Exist")), s1)
    else
      and_then (run getToken s1) (fun authorization s2 =>
        run (request (setEnv_config env name value_ remarks authorization)) s2)).
Proof.
  unfold setEnv. run_simpl.
  destruct (run (getEnv name) s) as [[env | e | ] s1]; cbn [and_then]; try reflexivity.
  destruct (negb (truthy env)); run_simpl; reflexivity.
Qed.

Lemma getEnv_returns (name : string) (s s' : state) (v : value) :
  run (getEnv name) s = (Returned v, s') ->
  get_prop v "name" = VStr name /\ truthy v = true.
Proof.
  rewrite run_getEnv.
  destruct (run getToken s) as [[tok | e | ] s1]; cbn [and_then]; try discriminate.
  destruct (run (request (getEnv_config name tok)) s1) as [[envs | e | ] s2];
    cbn [and_then]; try discriminate.
  rewrite run_from_option.
  destruct (iterate envs) as [elems | ]; cbn [and_then]; try discriminate.
  intros H. apply find_env_returns in H. tauto.
Qed.

(** C7, as amended.  [setEnv] first looks the variable up with [getEnv].  If
    the lookup throws, [setEnv] throws the same exception in the state the
    lookup left, and every request made was a [GET]: no [PUT] is sent.  If
    the lookup returns [env], [setEnv] calls [getToken] again; if that
    throws, [setEnv] throws the same exception, and again every request made
    was a [GET].  If it returns the token, [setEnv] sends one [PUT] of
    [/open/envs], under that token and as JSON, whose data are [env]'s [id]
    with [name], [value] and [remarks] ([undefined] when left out), and it
    ends as that request ends: with the response's [data] when the service
    accepts it.  Every request before the [PUT] was a [GET]. *)
Theorem setEnv_looks_up_then_puts
    (name value_ : string) (remarks : option string) (s : state) :
  (forall (e : exn) (s1 : state),
      run (getEnv name) s = (Thrown e, s1) ->
      run (setEnv name value_ remarks) s = (Thrown e, s1) /\ only_gets s s1)
  /\ (forall (env : value) (s1 s2 : state) (e : exn),
      run (getEnv name) s = (Returned env, s1) ->
      run getToken s1 = (Thrown e, s2) ->
      run (setEnv name value_ remarks) s = (Thrown e, s2) /\ only_gets s s2)
  /\ (forall (env : value) (s1 s2 : state) (tok : string),
      run (getEnv name) s = (Returned env, s1) ->
      run getToken s1 = (Returned tok, s2) ->
      let config :=
        {| method := "PUT";
           url := "/open/envs";
           headers := VObj [("Authorization", VStr tok);
                            ("Content-Type", VStr "application/json")];
           params := VUndefined;
           data := VObj [("id", get_prop env "id");
                         ("name", VStr name);
                         ("value", VStr value_);
                         ("remarks", match remarks with
                                     | Some text => VStr text
                                     | None => VUndefined
                                     end)] |} in
      let answer := axios_request (axiosInstance (client s2)) config (world s2) in
      run (setEnv name value_ remarks) s =
        (settled (request_result (fst answer)),
         {| client := client s2;
            locks := locks s2;
            calls := (calls s2 ++ [config])%list;
            world := snd answer |})
      /\ only_gets s s2
      /\ (forall resp, fst answer = Resolved resp ->
            200 <= status resp < 300 ->
            get_member (body resp) "code" = Some (VNum 200) ->
            fst (run (setEnv name value_ remarks) s)
              = Returned (get_prop (body resp) "data"))).
Proof.
  assert (Hgets : forall r s1 s2 (t : completion string),
             run (getEnv name) s = (r, s1) -> run getToken s1 = (t, s2) -> only_gets s s2).
  { intros r s1 s2 t Hget Htok. apply only_gets_trans with s1.
    - pose proof (getEnv_only_gets name s) as H. now rewrite Hget in H.
    - pose proof (getToken_only_gets s1) as H. now rewrite Htok in H. }
  split; [ | split].
  - intros e s1 Hget. split.
    + rewrite run_setEnv, Hget. reflexivity.
    + pose proof (getEnv_only_gets name s) as H. now rewrite Hget in H.
  - intros env s1 s2 e Hget Htok. split; [ | exact (Hgets _ _ _ _ Hget Htok)].
    rewrite run_setEnv, Hget. cbn [and_then].
    destruct (getEnv_returns _ _ _ _ Hget) as [_ Ht]. rewrite Ht. cbn [negb].
    rewrite Htok. reflexivity.
  - intros env s1 s2 tok Hget Htok config answer.
    assert (Hrun : run (setEnv name value_ remarks) s =
      (settled (request_result (fst answer)),
       {| client := client s2; locks := locks s2;
          calls := (calls s2 ++ [config])%list; world := snd answer |})).
    { rewrite run_setEnv, Hget. cbn [and_then].
      destruct (getEnv_returns _ _ _ _ Hget) as [_ Ht]. rewrite Ht. cbn [negb].
      rewrite Htok. cbn [and_then]. rewrite run_request. unfold issue.
      change (setEnv_config env name value_ remarks tok) with config.
      subst answer. destruct (axios_request _ config (world s2)) as [o w].
      reflexivity. }
    split; [exact Hrun | ]. split; [exact (Hgets _ _ _ _ Hget Htok) | ].
    intros resp Hans Hst Hc. rewrite Hrun, Hans. cbn [fst].
    assert (Hd : get_member (body resp) "data" = Some (get_prop (body resp) "data")).
    { unfold get_member in *. destruct (nullish (body resp)); [discriminate | reflexivity]. }
    rewrite (request_result_ok _ _ Hst Hc Hd). reflexivity.
Qed.

(** C9.  The [Not Exist] branch of [setEnv] is dead code: whatever [getEnv]
    returns is an object of the response list whose [name] is the name asked
    for, never [null], [undefined] or another falsy value; so the guard
    [if (!env)] never fires, and [setEnv] is [getEnv], then [getToken], then
    the [PUT]. *)
Theorem setEnv_guard_unreachable
    (name value_ : string) (remarks : option string) (s : state) :
  (forall (env : value) (s1 : state),
      run (getEnv name) s = (Returned env, s1) ->
      truthy env = true /\ get_prop env "name" = VStr name)
  /\ run (setEnv name value_ remarks) s =
     and_then (run (getEnv name) s) (fun env s1 =>
     and_then (run getToken s1) (fun authorization s2 =>
     run (request (setEnv_config env name value_ remarks authorization)) s2)).
Proof.
  split.
  - intros env s1 H. apply getEnv_returns in H. tauto.
  - rewrite run_setEnv.
    destruct (run (getEnv name) s) as [[env | e | ] s1] eqn:Hget; cbn [and_then];
      try reflexivity.
    destruct (getEnv_returns _ _ _ _ Hget) as [_ Ht]. rewrite Ht. reflexivity.
Qed.

Lemma setEnv_keeps_settings (name value_ : string) (remarks : option string) :
  preserves settings_kept (setEnv name value_ remarks).
Proof.
  unfold setEnv.
  apply (preserves_bind _ settings_kept_trans); [ | intros env].
  { apply (preserves_await _ settings_kept_refl settings_kept_trans).
    apply getEnv_keeps_settings. }
  destruct (negb (truthy env)); [apply (preserves_throw _ settings_kept_refl) | ].
  apply (preserves_bind _ settings_kept_trans); [ | intros tok].
  { apply (preserves_await _ settings_kept_refl settings_kept_trans).
    apply getToken_keeps_settings. }
  apply request_keeps_settings.
Qed.

(** C10.  [tokenInfo] is the only field of the client a method assigns:
    [baseUrl], [clientId], [clientSecret] and [axiosInstance] are, after
    every call of [request], [getToken], [doGetToken], [getEnv] and [setEnv],
    however it ends, what they were before it. *)
Theorem methods_keep_settings
    (config : AxiosRequestConfig) (name value_ : string) (remarks : option string)
    (s : state) :
  same_settings (client s) (client (snd (run (request config) s)))
  /\ same_settings (client s) (client (snd (run getToken s)))
  /\ same_settings (client s) (client (snd (run doGetToken s)))
  /\ same_settings (client s) (client (snd (run (getEnv name) s)))
  /\ same_settings (client s) (client (snd (run (setEnv name value_ remarks) s))).
Proof.
  split; [apply request_keeps_settings | ].
  split; [apply getToken_keeps_settings | ].
  split; [apply doGetToken_keeps_settings | ].
  split; [apply getEnv_keeps_settings | apply setEnv_keeps_settings].
Qed.

(** ** More on [getToken] *)

(** X1.  A client as the constructor builds it has no token: its first call
    of [getToken] sends the token request, a [GET] of [/open/auth/token]
    whose [client_id] and [client_secret] are the constructor's second and
    third argument, through the instance made with [baseURL] the first
    argument, method [GET], response type [json] and a timeout of 3000. *)
Theorem new_Client_first_getToken
    (baseUrl clientId clientSecret : string)
    (ls : list bool) (cs : list AxiosRequestConfig) (w : W) :
  let s := {| client := new_Client baseUrl clientId clientSecret;
              locks := ls; calls := cs; world := w |} in
  let config := {| method := "GET";
                   url := "/open/auth/token";
                   headers := VUndefined;
                   params := VObj [("client_id", VStr clientId);
                                   ("client_secret", VStr clientSecret)];
                   data := VUndefined |} in
  calls (snd (run getToken s)) = (cs ++ [config])%list
  /\ world (snd (run getToken s))
     = snd (axios_request (axios_create "GET" baseUrl "json" 3000) config w).
Proof.
  intros s config.
  assert (H : cached (tokenInfo (client s)) = false) by reflexivity.
  rewrite (run_getToken_fetch _ H). unfold issue. cbn [client world s new_Client].
  change (token_config _) with config.
  destruct (axios_request _ config w) as [o w']. cbv zeta.
  destruct (request_result o); split; reflexivity.
Qed.

(** [getToken] when the token request fails. *)
Lemma run_getToken_failed (s : state) (e : exn) :
  cached (tokenInfo (client s)) = false ->
  request_result
    (fst (axios_request (axiosInstance (client s)) (token_config (client s)) (world s)))
    = inr e ->
  run getToken s =
    (Thrown e,
     {| client := client s;
        locks := (locks s ++ [false])%list;
        calls := (calls s ++ [token_config (client s)])%list;
        world := snd (axios_request (axiosInstance (client s)) (token_config (client s))
                        (world s)) |}).
Proof.
  intros H He. rewrite (run_getToken_fetch _ H). unfold issue.
  destruct (axios_request _ _ (world s)) as [o w]. cbn [fst snd] in *.
  cbv zeta. rewrite He. reflexivity.
Qed.

(** X2.  When nothing valid is cached and the token request fails (the
    transport rejects, or [request] throws), [getToken] throws the same
    exception, has released the lock it created, and leaves the client as it
    was: nothing is cached, not even the failure, so the next call of
    [getToken] sends the token request again. *)
Theorem getToken_failed_fetch (s : state) (e : exn) :
  cached (tokenInfo (client s)) = false ->
  request_result
    (fst (axios_request (axiosInstance (client s)) (token_config (client s)) (world s)))
    = inr e ->
  let s' := snd (run getToken s) in
  run getToken s =
    (Thrown e,
     {| client := client s;
        locks := (locks s ++ [false])%list;
        calls := (calls s ++ [token_config (client s)])%list;
        world := snd (axios_request (axiosInstance (client s)) (token_config (client s))
                        (world s)) |})
  /\ calls (snd (run getToken s')) = (calls s' ++ [token_config (client s)])%list.
Proof.
  intros H He s'. pose proof (run_getToken_failed _ _ H He) as Hrun.
  split; [exact Hrun | ].
  subst s'. rewrite Hrun. cbn [snd].
  match goal with |- context [run getToken ?t] => set (s1 := t) end.
  assert (H1 : cached (tokenInfo (client s1)) = false) by exact H.
  rewrite (run_getToken_fetch _ H1). unfold issue.
  destruct (axios_request _ _ (world s1)) as [o w]. cbv zeta.
  destruct (request_result o); reflexivity.
Qed.

(** X3.  [getToken] does not check what the service sends as token
    information.  When the answer has [code: 200] and its [data] is [null]
    or missing, [getToken] has already stored that in [tokenInfo] when
    reading [token_type] throws the [TypeError]. *)
Theorem getToken_null_data (s : state) (fetched : value) :
  cached (tokenInfo (client s)) = false ->
  request_result
    (fst (axios_request (axiosInstance (client s)) (token_config (client s)) (world s)))
    = inl fetched ->
  fetched = VNull \/ fetched = VUndefined ->
  fst (run getToken s) = Thrown TypeError
  /\ tokenInfo (client (snd (run getToken s))) = fetched.
Proof.
  intros H Hres Hnull.
  rewrite (run_getToken_fetch _ H). unfold issue.
  destruct (axios_request _ _ (world s)) as [o w]. cbn [fst] in Hres.
  cbv zeta. rewrite Hres.
  destruct Hnull as [-> | ->]; split; reflexivity.
Qed.

(** X4.  Nor does it check the fields: when the [data] is an object that has
    neither [token_type] nor [token], [getToken] stores it and returns the
    string [undefined undefined]. *)
Theorem getToken_missing_fields (s : state) (props : list (string * value)) :
  cached (tokenInfo (client s)) = false ->
  request_result
    (fst (axios_request (axiosInstance (client s)) (token_config (client s)) (world s)))
    = inl (VObj props) ->
  lookup "token_type" props = VUndefined ->
  lookup "token" props = VUndefined ->
  fst (run getToken s) = Returned "undefined undefined"
  /\ tokenInfo (client (snd (run getToken s))) = VObj props.
Proof.
  intros H Hres Htype Htoken.
  rewrite (run_getToken_fetch _ H). unfold issue.
  destruct (axios_request _ _ (world s)) as [o w]. cbn [fst] in Hres.
  cbv zeta. rewrite Hres. cbn [nullish fst snd client with_client with_locks].
  unfold token_result, token_text. cbn [get_prop]. rewrite Htype, Htoken.
  split; reflexivity.
Qed.

(** X5.  [request] and [doGetToken] leave the client object and the locks as
    they are: [doGetToken] fetches token information without caching it. *)
Theorem request_keeps_client (config : AxiosRequestConfig) (s : state) :
  client (snd (run (request config) s)) = client s
  /\ locks (snd (run (request config) s)) = locks s
  /\ client (snd (run doGetToken s)) = client s
  /\ locks (snd (run doGetToken s)) = locks s.
Proof.
  rewrite run_doGetToken, !run_request. unfold issue.
  destruct (axios_request _ config (world s)) as [o w].
  destruct (axios_request _ (token_config (client s)) (world s)) as [o' w'].
  repeat split.
Qed.


(** ** Locks and waiting *)

Lemma locks_released_refl (s : state) : locks_released s s.
Proof. exists O. cbn [repeat]. now rewrite app_nil_r. Qed.

Lemma locks_released_trans (s1 s2 s3 : state) :
  locks_released s1 s2 -> locks_released s2 s3 -> locks_released s1 s3.
Proof.
  intros [n E1] [m E2]. exists (n + m)%nat.
  rewrite E2, E1, <- app_assoc, repeat_app. reflexivity.
Qed.

Lemma request_locks_released (config : AxiosRequestConfig) :
  preserves locks_released (request config).
Proof.
  intros s. rewrite run_request. unfold issue.
  destruct (axios_request _ _ (world s)) as [o w]. apply (locks_released_refl s).
Qed.

Lemma getToken_locks_released : preserves locks_released getToken.
Proof.
  intros s. destruct (cached (tokenInfo (client s))) eqn:H.
  - rewrite (run_getToken_cached _ H). apply locks_released_refl.
  - rewrite (run_getToken_fetch _ H). unfold issue.
    destruct (axios_request _ _ (world s)) as [o w]. cbv zeta.
    destruct (request_result o); exists 1%nat; reflexivity.
Qed.

Lemma getEnv_locks_released (name : string) : preserves locks_released (getEnv name).
Proof.
  apply preserves_getEnv.
  - exact locks_released_refl.
  - exact locks_released_trans.
  - exact getToken_locks_released.
  - intros tok. apply request_locks_released.
Qed.

Lemma setEnv_locks_released (name value_ : string) (remarks : option string) :
  preserves locks_released (setEnv name value_ remarks).
Proof.
  unfold setEnv.
  apply (preserves_bind _ locks_released_trans); [ | intros env].
  { apply (preserves_await _ locks_released_refl locks_released_trans).
    apply getEnv_locks_released. }
  destruct (negb (truthy env)); [apply (preserves_throw _ locks_released_refl) | ].
  apply (preserves_bind _ locks_released_trans); [ | intros tok].
  { apply (preserves_await _ locks_released_refl locks_released_trans).
    apply getToken_locks_released. }
  apply request_locks_released.
Qed.

Lemma and_then_ends {A B : Type} (r : completion A * state)
    (f : A -> state -> completion B * state) :
  fst r <> Blocked ->
  (forall a s, fst (f a s) <> Blocked) ->
  fst (and_then r f) <> Blocked.
Proof.
  intros Hr Hf. destruct r as [[a | e | ] s]; cbn [and_then fst] in *;
    [apply Hf | discriminate | contradiction].
Qed.

Lemma request_ends (config : AxiosRequestConfig) (s : state) :
  fst (run (request config) s) <> Blocked.
Proof.
  rewrite run_request. destruct (issue _ config s) as [o s'].
  cbn [fst]. destruct (request_result o); discriminate.
Qed.

Lemma token_result_ends (v : value) : token_result v <> Blocked.
Proof. unfold token_result. destruct (token_text v); discriminate. Qed.

Lemma getToken_ends (s : state) : fst (run getToken s) <> Blocked.
Proof.
  destruct (cached (tokenInfo (client s))) eqn:H.
  - rewrite (run_getToken_cached _ H). apply token_result_ends.
  - rewrite (run_getToken_fetch _ H). destruct (issue _ _ s) as [o s1]. cbv zeta.
    destruct (request_result o) as [fetched | e]; [ | discriminate].
    destruct (nullish fetched); [discriminate | apply token_result_ends].
Qed.

Lemma run_find_env_state (name : string) (elems : list value) (s : state) :
  snd (run (find_env name elems) s) = s /\ fst (run (find_env name elems) s) <> Blocked.
Proof.
  induction elems as [ | env rest IH]; [split; [reflexivity | discriminate] | ].
  cbn [find_env]. run_simpl. unfold get_member.
  destruct (nullish env); run_simpl; [split; [reflexivity | discriminate] | ].
  destruct (strict_equals (get_prop env "name") (VStr name)); run_simpl;
    [split; [reflexivity | discriminate] | exact IH].
Qed.

Lemma getEnv_ends (name : string) (s : state) : fst (run (getEnv name) s) <> Blocked.
Proof.
  rewrite run_getEnv.
  apply and_then_ends; [apply getToken_ends | intros tok s1].
  apply and_then_ends; [apply request_ends | intros envs s2].
  apply and_then_ends; [rewrite run_from_option; destruct (iterate envs); discriminate | ].
  intros elems s3. apply run_find_env_state.
Qed.

Lemma setEnv_ends (name value_ : string) (remarks : option string) (s : state) :
  fst (run (setEnv name value_ remarks) s) <> Blocked.
Proof.
  rewrite run_setEnv.
  apply and_then_ends; [apply getEnv_ends | intros env s1].
  destruct (negb (truthy env)); [discriminate | ].
  apply and_then_ends; [apply getToken_ends | intros tok s2]. apply request_ends.
Qed.

(** X7.  A call running alone never waits for a lock: [request], [getToken],
    [getEnv] and [setEnv] always end, with a value or an exception.  And
    whichever way they end, also when a request throws inside the [try],
    the [finally] of line 87 has released every lock they took: the locks
    there were are as they were, and the new ones are free. *)
Theorem methods_end_with_locks_released
    (config : AxiosRequestConfig) (name value_ : string) (remarks : option string)
    (s : state) :
  (fst (run (request config) s) <> Blocked
   /\ locks_released s (snd (run (request config) s)))
  /\ (fst (run getToken s) <> Blocked
      /\ locks_released s (snd (run getToken s)))
  /\ (fst (run (getEnv name) s) <> Blocked
      /\ locks_released s (snd (run (getEnv name) s)))
  /\ (fst (run (setEnv name value_ remarks) s) <> Blocked
      /\ locks_released s (snd (run (setEnv name value_ remarks) s))).
Proof.
  repeat split.
  - apply request_ends.
  - apply request_locks_released.
  - apply getToken_ends.
  - apply getToken_locks_released.
  - apply getEnv_ends.
  - apply getEnv_locks_released.
  - apply setEnv_ends.
  - apply setEnv_locks_released.
Qed.

(** X8.  With a valid token cached, [getToken] reaches its [return] of line
    72 without a single [await]: the call is over, with the cached string,
    before the event loop gets control, so nothing can run in between. *)
Theorem getToken_cache_hit_is_synchronous (s : state) (t : ITokenInfo) :
  tokenInfo (client s) = of_ITokenInfo t ->
  expiration t <> 0 ->
  drive axios_request getToken s = (Fulfilled (token_type t ++ " " ++ token t), s).
Proof.
  intros Ht Hexp. unfold getToken, get_this, perform.
  cbn [bind drive exec suspends]. rewrite Ht, (is_cached _ Hexp). reflexivity.
Qed.

(** ** More on [getEnv] and [setEnv] *)

(** [getEnv] once the token is at hand and the lookup has been answered. *)
Lemma run_getEnv_answered (name : string) (s s1 : state) (tok : string) :
  run getToken s = (Returned tok, s1) ->
  run (getEnv name) s =
  let (o, s2) := issue (axiosInstance (client s1)) (getEnv_config name tok) s1 in
  match request_result o with
  | inl envs =>
      match iterate envs with
      | Some elems => (fst (run (find_env name elems) s2), s2)
      | None => (Thrown TypeError, s2)
      end
  | inr e => (Thrown e, s2)
  end.
Proof.
  intros Htok. rewrite run_getEnv, Htok. cbn [and_then]. rewrite run_request.
  destruct (issue _ _ s1) as [o s2].
  destruct (request_result o) as [envs | e]; cbn [settled and_then]; [ | reflexivity].
  rewrite run_from_option. destruct (iterate envs) as [elems | ]; cbn [and_then];
    [ | reflexivity].
  destruct (run_find_env_state name elems s2) as [Hs _].
  rewrite <- Hs at 3. now destruct (run (find_env name elems) s2).
Qed.

Lemma run_getToken_holding (s : state) (t : ITokenInfo) :
  tokenInfo (client s) = of_ITokenInfo t ->
  expiration t <> 0 ->
  run getToken s = (Returned (token_type t ++ " " ++ token t), s).
Proof.
  intros Ht Hexp.
  assert (H : cached (tokenInfo (client s)) = true) by (rewrite Ht; now apply is_cached).
  rewrite (run_getToken_cached _ H), Ht. reflexivity.
Qed.

(** X9.  With a valid token cached, [getEnv] sends exactly one request,
    whatever comes of it: the lookup, whose [Authorization] header is the
    cached [token_type], a space, and the cached [token]. *)
Theorem getEnv_with_cached_token (name : string) (s : state) (t : ITokenInfo) :
  tokenInfo (client s) = of_ITokenInfo t ->
  expiration t <> 0 ->
  calls (snd (run (getEnv name) s))
    = (calls s ++ [getEnv_config name (token_type t ++ " " ++ token t)])%list
  /\ headers (getEnv_config name (token_type t ++ " " ++ token t))
     = VObj [("Authorization", VStr (token_type t ++ " " ++ token t))].
Proof.
  intros Ht Hexp. split; [ | reflexivity].
  rewrite (run_getEnv_answered name s s _ (run_getToken_holding _ _ Ht Hexp)).
  unfold issue.
  destruct (axios_request _ _ (world s)) as [o w].
  destruct (request_result o) as [envs | e]; [ | reflexivity].
  destruct (iterate envs); reflexivity.
Qed.

(** X10.  With a valid token cached and the lookup answered with a list of
    records that has one named [name], [setEnv] sends exactly two requests,
    the lookup and then the [PUT], both under the cached token; the [PUT]
    carries the [id] of the first record of that name, and [setEnv] ends as
    the [PUT] ends. *)
Theorem setEnv_with_cached_token
    (name value_ : string) (remarks : option string) (s : state) (t : ITokenInfo)
    (resp : AxiosResponse) (w1 : W) (records : list IGetEnvResp) (r : IGetEnvResp) :
  tokenInfo (client s) = of_ITokenInfo t ->
  expiration t <> 0 ->
  let tok := token_type t ++ " " ++ token t in
  axios_request (axiosInstance (client s)) (getEnv_config name tok) (world s)
    = (Resolved resp, w1) ->
  200 <= status resp < 300 ->
  get_member (body resp) "code" = Some (VNum 200) ->
  get_member (body resp) "data" = Some (VArr (map of_IGetEnvResp records)) ->
  find (fun r => (env_name r =? name)%string) records = Some r ->
  let put := setEnv_config (of_IGetEnvResp r) name value_ remarks tok in
  let answer := axios_request (axiosInstance (client s)) put w1 in
  run (setEnv name value_ remarks) s =
    (settled (request_result (fst answer)),
     {| client := client s;
        locks := locks s;
        calls := (calls s ++ [getEnv_config name tok; put])%list;
        world := snd answer |})
  /\ data put = VObj [("id", VNum (env_id r));
                      ("name", VStr name);
                      ("value", VStr value_);
                      ("remarks", option_string remarks)].
Proof.
  intros Ht Hexp tok Hax Hst Hc Hd Hfind put answer. split; [ | reflexivity].
  pose proof (run_getToken_holding _ _ Ht Hexp) as Htok.
  rewrite run_setEnv, (run_getEnv_answered name s s tok Htok).
  unfold issue. rewrite Hax, (request_result_ok _ _ Hst Hc Hd). cbn [iterate].
  rewrite run_find_env_records, Hfind. cbn [fst and_then truthy of_IGetEnvResp negb].
  match goal with |- context [run getToken ?x] => set (s1 := x) end.
  assert (Htok1 : run getToken s1 = (Returned tok, s1))
    by (apply run_getToken_holding; [exact Ht | exact Hexp]).
  rewrite Htok1. cbn [and_then]. rewrite run_request. unfold issue. subst s1 answer.
  cbn [client world locks calls].
  change (setEnv_config _ name value_ remarks tok) with put.
  destruct (axios_request _ put w1) as [o w2]. cbn [fst snd].
  rewrite <- app_assoc. reflexivity.
Qed.

Lemma find_env_characters (name : string) (chars : list ascii) (s : state) :
  run (find_env name (map (fun ch => VStr (String ch EmptyString)) chars)) s
    = (Thrown (Error ("Env '" ++ name ++ "' Not Found")), s).
Proof.
  induction chars as [ | ch rest IH]; [reflexivity | ].
  cbn [map find_env]. run_simpl. cbn [get_member nullish get_prop]. run_simpl.
  cbn [strict_equals]. exact IH.
Qed.

(** X11.  [getEnv] does not check that the lookup's [data] is a list.  When
    it is [null], missing, a number, a boolean or an object, the loop of line
    103 throws a [TypeError]; when it is a string, the loop runs over its
    characters and [getEnv] throws [Env '<name>' Not Found]. *)
Theorem getEnv_data_not_a_list
    (name : string) (s s1 : state) (tok : string) (envs : value) :
  run getToken s = (Returned tok, s1) ->
  request_result
    (fst (axios_request (axiosInstance (client s1)) (getEnv_config name tok) (world s1)))
    = inl envs ->
  match envs with
  | VArr _ => True
  | VStr _ => fst (run (getEnv name) s) = Thrown (Error ("Env '" ++ name ++ "' Not Found"))
  | _ => fst (run (getEnv name) s) = Thrown TypeError
  end.
Proof.
  intros Htok Hres. rewrite (run_getEnv_answered name s s1 tok Htok). unfold issue.
  destruct (axios_request _ _ (world s1)) as [o w]. cbn [fst] in Hres. rewrite Hres.
  destruct envs; cbn [iterate fst]; try reflexivity; try exact I.
  rewrite find_env_characters. reflexivity.
Qed.

Lemma run_find_env_absent (name : string) (records : list IGetEnvResp)
    (rest : list value) (s : state) :
  find (fun r => (env_name r =? name)%string) records = None ->
  run (find_env name (map of_IGetEnvResp records ++ rest)) s = run (find_env name rest) s.
Proof.
  induction records as [ | r records IH]; [reflexivity | ].
  cbn [find map app find_env]. run_simpl.
  change (get_member (of_IGetEnvResp r) "name") with (Some (VStr (env_name r))).
  run_simpl. cbn [strict_equals].
  destruct (env_name r =? name)%string; [discriminate | exact IH].
Qed.

(** X12.  A [null] among the records makes the loop throw a [TypeError] at
    line 104 when no record before it has the name asked for, whatever
    follows it in the list; a record of that name before it is returned. *)
Theorem getEnv_null_record
    (name : string) (s s1 : state) (tok : string)
    (records : list IGetEnvResp) (rest : list value) :
  run getToken s = (Returned tok, s1) ->
  request_result
    (fst (axios_request (axiosInstance (client s1)) (getEnv_config name tok) (world s1)))
    = inl (VArr (map of_IGetEnvResp records ++ VNull :: rest)) ->
  fst (run (getEnv name) s) =
    match find (fun r => (env_name r =? name)%string) records with
    | Some r => Returned (of_IGetEnvResp r)
    | None => Thrown TypeError
    end.
Proof.
  intros Htok Hres. rewrite (run_getEnv_answered name s s1 tok Htok). unfold issue.
  destruct (axios_request _ _ (world s1)) as [o w]. cbn [fst] in Hres. rewrite Hres.
  cbn [iterate fst].
  destruct (find (fun r => (env_name r =? name)%string) records) as [r | ] eqn:Hfind.
  - clear Hres. revert Hfind. induction records as [ | r0 records IH]; [discriminate | ].
    cbn [find map app find_env]. run_simpl.
    change (get_member (of_IGetEnvResp r0) "name") with (Some (VStr (env_name r0))).
    run_simpl. cbn [strict_equals].
    destruct (env_name r0 =? name)%string; [now intros [= ->] | exact IH].
  - rewrite (run_find_env_absent _ _ _ _ Hfind). reflexivity.
Qed.

(** X13.  When nothing valid is cached and the token request fails, [getEnv]
    and [setEnv] throw that same exception, and the token request is the only
    request they have sent: no lookup and no [PUT] goes out without a
    token. *)
Theorem no_request_without_token
    (name value_ : string) (remarks : option string) (s : state) (e : exn) :
  cached (tokenInfo (client s)) = false ->
  request_result
    (fst (axios_request (axiosInstance (client s)) (token_config (client s)) (world s)))
    = inr e ->
  (fst (run (getEnv name) s) = Thrown e
   /\ calls (snd (run (getEnv name) s)) = (calls s ++ [token_config (client s)])%list)
  /\ (fst (run (setEnv name value_ remarks) s) = Thrown e
      /\ calls (snd (run (setEnv name value_ remarks) s))
         = (calls s ++ [token_config (client s)])%list).
Proof.
  intros H He. pose proof (run_getToken_failed _ _ H He) as Hrun.
  assert (Hget : run (getEnv name) s = (Thrown e, snd (run getToken s))).
  { rewrite run_getEnv, Hrun. reflexivity. }
  assert (Hset : run (setEnv name value_ remarks) s = (Thrown e, snd (run getToken s))).
  { rewrite run_setEnv, Hget. reflexivity. }
  rewrite Hset, Hget, Hrun. repeat split.
Qed.

(** ** What the client ever sends *)

Section Sent.

Variables (name value_ : string) (remarks : option string).

Local Abbreviation sends := (sends_only (request_of_setEnv name value_ remarks)).

Lemma sends_refl (s : state) : sends s s.
Proof.
  split; [repeat split | ]. exists []. split; [now rewrite app_nil_r | constructor].
Qed.

Lemma request_of_setEnv_same_settings (c c' : Client) (config : AxiosRequestConfig) :
  same_settings c c' ->
  request_of_setEnv name value_ remarks c' config ->
  request_of_setEnv name value_ remarks c config.
Proof.
  intros (_ & Hid & Hsecret & _) [-> | H]; [left | right; exact H].
  unfold token_config. now rewrite Hid, Hsecret.
Qed.

Lemma sends_trans (s1 s2 s3 : state) : sends s1 s2 -> sends s2 s3 -> sends s1 s3.
Proof.
  intros [H12 (l1 & E1 & F1)] [H23 (l2 & E2 & F2)]. split.
  - destruct H12 as (? & ? & ? & ?), H23 as (? & ? & ? & ?). repeat split; congruence.
  - exists (l1 ++ l2)%list. split; [rewrite E2, E1, app_assoc; reflexivity | ].
    apply Forall_app. split; [exact F1 | ].
    eapply Forall_impl; [ | exact F2].
    intros config. now apply request_of_setEnv_same_settings.
Qed.

Lemma request_sends (config : AxiosRequestConfig) :
  (forall c, request_of_setEnv name value_ remarks c config) ->
  preserves sends (request config).
Proof.
  intros Hc s. rewrite run_request. unfold issue.
  destruct (axios_request _ _ (world s)) as [o w]. cbn [snd].
  split; [repeat split | ]. exists [config]. split; [reflexivity | ].
  constructor; [apply Hc | constructor].
Qed.

Lemma doGetToken_sends : preserves sends doGetToken.
Proof.
  intros s. rewrite run_doGetToken, run_request. unfold issue.
  destruct (axios_request _ _ (world s)) as [o w]. cbn [snd].
  split; [repeat split | ]. exists [token_config (client s)]. split; [reflexivity | ].
  constructor; [now left | constructor].
Qed.

Lemma getToken_sends : preserves sends getToken.
Proof.
  apply preserves_getToken.
  - exact sends_refl.
  - exact sends_trans.
  - intros s ls. apply (sends_refl (with_locks ls s)).
  - intros s v. split; [repeat split | ].
    exists []. split; [cbn [calls with_client]; now rewrite app_nil_r | constructor].
  - exact doGetToken_sends.
Qed.

Lemma getEnv_sends : preserves sends (getEnv name).
Proof.
  apply preserves_getEnv.
  - exact sends_refl.
  - exact sends_trans.
  - exact getToken_sends.
  - intros tok. apply request_sends. intros c. right; left. now exists tok.
Qed.

Lemma setEnv_sends : preserves sends (setEnv name value_ remarks).
Proof.
  unfold setEnv.
  apply (preserves_bind _ sends_trans); [ | intros env].
  { apply (preserves_await _ sends_refl sends_trans), getEnv_sends. }
  destruct (negb (truthy env)); [apply (preserves_throw _ sends_refl) | ].
  apply (preserves_bind _ sends_trans); [ | intros tok].
  { apply (preserves_await _ sends_refl sends_trans), getToken_sends. }
  apply request_sends. intros c. right; right. now exists env, tok.
Qed.

End Sent.

(** X14.  Whatever the service answers, every request that [getToken],
    [getEnv name] and [setEnv name value remarks] send is one of three: the
    token request with the client's own [client_id] and [client_secret], the
    lookup of [name], or the [PUT] for [name] with [value] and [remarks].
    So every request is a [GET] of [/open/auth/token], a [GET] of
    [/open/envs] or a [PUT] of [/open/envs]. *)
Theorem client_sends_only_its_requests
    (name value_ : string) (remarks : option string) (s : state) :
  sends_only (request_of_setEnv name value_ remarks) s (snd (run getToken s))
  /\ sends_only (request_of_setEnv name value_ remarks) s (snd (run (getEnv name) s))
  /\ sends_only (request_of_setEnv name value_ remarks) s
       (snd (run (setEnv name value_ remarks) s))
  /\ (forall (c : Client) (config : AxiosRequestConfig),
        request_of_setEnv name value_ remarks c config ->
        (config = token_config c /\ method config = "GET" /\ url config = "/open/auth/token")
        \/ (url config = "/open/envs"
            /\ (method config = "GET" \/ method config = "PUT"))).
Proof.
  split; [apply getToken_sends | ].
  split; [apply getEnv_sends | ].
  split; [apply setEnv_sends | ].
  intros c config [-> | [[tok ->] | [env [tok ->]]]].
  - left. repeat split.
  - right. split; [reflexivity | now left].
  - right. split; [reflexivity | now right].
Qed.

(** ** Two calls of [getToken] together *)

Ltac event_loop H :=
  repeat first
    [ progress cbn [which_call interleave step nth_error pending ended forallb andb resume
                    ready existsb orb replace_nth fst snd drive bind try_finally exec
                    suspends awaits_network client with_locks with_client locks calls
                    world app]
    | rewrite H
    | rewrite set_lock_last
    | progress (unfold held; cbn [locks with_locks]; rewrite held_new_lock)
    | progress unfold issue
    | match goal with
      | |- context [axios_request ?a ?b ?c] => destruct (axios_request a b c) as [? ?]
      end ].

(** X15.  For every service and every client with nothing valid cached: of
    two calls of [getToken] made together, each has its own lock (line 75)
    and is granted it.  The event loop can only resume the one and then the
    other, in either order, and then both token requests have been sent and
    both calls wait for their answers, [tokenInfo] still as it was; it
    cannot resume the same call twice, that is hand one call its answer
    while the other has not sent its request. *)
Theorem concurrent_getTokens_send_two_requests (s : state) (i j : bool) :
  cached (tokenInfo (client s)) = false ->
  match
    interleave axios_request [which_call i; which_call j]
      (fst (spawn axios_request getToken (spawn axios_request getToken ([], s))))
      (snd (spawn axios_request getToken (spawn axios_request getToken ([], s))))
  with
  | Some (pool, s') =>
      calls s' = (calls s ++ [token_config (client s); token_config (client s)])%list
      /\ forallb pending pool = true
      /\ client s' = client s
  | None => i = j
  end.
Proof.
  intros H.
  unfold spawn, getToken, doGetToken, request, axios_call, await, get_this, new_RWLock,
    writeLock, unlock, set_tokenInfo, perform.
  destruct i, j; event_loop H; try reflexivity;
    rewrite <- app_assoc; repeat split.
Qed.

(** ** The first [setEnv] of a client *)

(** X16.  On a client with nothing valid cached, when the token request is
    answered with token information whose [expiration] is not 0 and the
    lookup with a list of records that has one named [name], [setEnv] sends
    three requests in this order: the token request, the lookup, and the
    [PUT] with the [id] of the first record of that name.  The token is
    fetched once and goes, as [token_type], a space and [token], with both
    the lookup and the [PUT]; it is left in [tokenInfo]; and [setEnv] ends as
    the [PUT] ends. *)
Theorem setEnv_first_use
    (name value_ : string) (remarks : option string) (s : state)
    (resp0 resp1 : AxiosResponse) (w0 w1 : W)
    (fetched : ITokenInfo) (records : list IGetEnvResp) (r : IGetEnvResp) :
  cached (tokenInfo (client s)) = false ->
  axios_request (axiosInstance (client s)) (token_config (client s)) (world s)
    = (Resolved resp0, w0) ->
  200 <= status resp0 < 300 ->
  get_member (body resp0) "code" = Some (VNum 200) ->
  get_member (body resp0) "data" = Some (of_ITokenInfo fetched) ->
  expiration fetched <> 0 ->
  let tok := token_type fetched ++ " " ++ token fetched in
  axios_request (axiosInstance (client s)) (getEnv_config name tok) w0
    = (Resolved resp1, w1) ->
  200 <= status resp1 < 300 ->
  get_member (body resp1) "code" = Some (VNum 200) ->
  get_member (body resp1) "data" = Some (VArr (map of_IGetEnvResp records)) ->
  find (fun r => (env_name r =? name)%string) records = Some r ->
  let put := setEnv_config (of_IGetEnvResp r) name value_ remarks tok in
  let answer := axios_request (axiosInstance (client s)) put w1 in
  run (setEnv name value_ remarks) s =
    (settled (request_result (fst answer)),
     {| client := assign_tokenInfo (of_ITokenInfo fetched) (client s);
        locks := (locks s ++ [false])%list;
        calls := (calls s ++ [token_config (client s); getEnv_config name tok; put])%list;
        world := snd answer |}).
Proof.
  intros H Hax0 Hst0 Hc0 Hd0 Hexp tok Hax1 Hst1 Hc1 Hd1 Hfind put answer.
  assert (Htok : run getToken s =
    (Returned tok,
     {| client := assign_tokenInfo (of_ITokenInfo fetched) (client s);
        locks := (locks s ++ [false])%list;
        calls := (calls s ++ [token_config (client s)])%list;
        world := w0 |})).
  { rewrite (run_getToken_fetch _ H). unfold issue. rewrite Hax0. cbv zeta.
    rewrite (request_result_ok _ _ Hst0 Hc0 Hd0). reflexivity. }
  rewrite run_setEnv, (run_getEnv_answered name s _ tok Htok).
  unfold issue. cbn [client world assign_tokenInfo axiosInstance].
  rewrite Hax1, (request_result_ok _ _ Hst1 Hc1 Hd1). cbn [iterate].
  rewrite run_find_env_records, Hfind. cbn [fst and_then truthy of_IGetEnvResp negb].
  match goal with |- context [run getToken ?x] => set (s1 := x) end.
  rewrite (run_getToken_holding s1 fetched eq_refl Hexp). cbn [and_then].
  rewrite run_request. unfold issue. subst s1 answer.
  cbn [client world locks calls assign_tokenInfo axiosInstance tokenInfo].
  change (setEnv_config _ name value_ remarks _) with put.
  destruct (axios_request _ put w1) as [o w2]. cbn [fst snd].
  rewrite <- !app_assoc. reflexivity.
Qed.

End Properties.


(** * The theorems on the sample service *)

Local Abbreviation on_sample thm :=
  (thm sample_Number_toString sample_JSON_stringify sample_inspector_url nat).

(** C1 on a new client: the first call fetches the token [first]. *)
Lemma getToken_fetches_and_stores_witness :
  sample_run 1800000000 sample_getToken (sample_start sample_client) =
    (Returned "Bearer first",
     {| client := assign_tokenInfo (of_ITokenInfo (sample_token 1800000000 0)) sample_client;
        locks := [false];
        calls := [token_config sample_client];
        world := 1%nat |}).
Proof.
  refine (proj1 (on_sample getToken_fetches_and_stores (sample_service 1800000000)
                   (sample_start sample_client)
                   (sample_response (of_ITokenInfo (sample_token 1800000000 0)))
                   (sample_token 1800000000 0) 1%nat _ _ _ _ _)).
  - left; reflexivity.
  - reflexivity.
  - simpl; lia.
  - reflexivity.
  - reflexivity.
Defined.

(** C2 after the first call of a new client, whose token expires in 2027:
    three more calls return the same string and leave the state alone. *)
Lemma getToken_cache_hit_witness :
  sample_run 1800000000 (repeat_call 3 sample_getToken) (sample_after_getToken 1800000000) =
    (Returned ["Bearer first"; "Bearer first"; "Bearer first"],
     sample_after_getToken 1800000000).
Proof.
  refine (proj2 (on_sample getToken_cache_hit (sample_service 1800000000)
                   (sample_after_getToken 1800000000) (sample_token 1800000000 0) _ _)
                (sample_start sample_client) "Bearer first" _ 3%nat).
  - reflexivity.
  - discriminate.
  - reflexivity.
Defined.

(** C2 as stated fails when the service hands out tokens whose [expiration]
    is 0: the first call of a new client succeeds, and the next call fetches
    again and returns another string. *)
Lemma getToken_refetches_after_success :
  fst (sample_run 0 sample_getToken (sample_start sample_client)) = Returned "Bearer first"
  /\ fst (sample_run 0 sample_getToken (sample_after_getToken 0)) = Returned "Bearer second"
  /\ calls (snd (sample_run 0 sample_getToken (sample_after_getToken 0)))
     = [token_config sample_client; token_config sample_client].
Proof. repeat split; vm_compute; reflexivity. Qed.

(** C3 as stated fails on a client whose cached token expired in 2023: called
    in 2026, [getToken] returns the stale token and makes no request, though
    the service would hand out [first]. *)
Lemma getToken_returns_expired_token :
  expiration stale_token < sample_now
  /\ sample_run 1800000000 sample_getToken (sample_holding stale_token)
     = (Returned "Bearer stale", sample_holding stale_token)
  /\ calls (sample_holding stale_token) = [].
Proof. repeat split; vm_compute; reflexivity. Qed.

(** C3, as amended, on the sample service: the expired token is returned as
    it is, and a token with [expiration] 0 is fetched again. *)
Lemma getToken_refresh_rule_witness :
  sample_run 1800000000 sample_getToken (sample_holding stale_token)
    = (Returned "Bearer stale", sample_holding stale_token)
  /\ calls (snd (sample_run 0 sample_getToken (sample_after_getToken 0)))
     = (calls (sample_after_getToken 0) ++ [token_config sample_client])%list.
Proof.
  split.
  - refine (proj1 (on_sample getToken_refresh_rule (sample_service 1800000000)
                     (sample_holding stale_token)) stale_token sample_now _ _ _).
    + reflexivity.
    + discriminate.
    + reflexivity.
  - refine (proj2 (on_sample getToken_refresh_rule (sample_service 0)
                     (sample_after_getToken 0)) _).
    right. exists (sample_token 0 0). split; reflexivity.
Defined.

(** C4 on two requests: a path the service does not know is answered 404 and
    [request] throws; the list of variables is answered 200 with [code] 200
    and [request] returns the list. *)
Lemma request_throws_iff_witness :
  (exists e,
      fst (sample_run 0 (sample_request sample_unknown_config) (sample_start sample_client))
        = Thrown e)
  /\ fst (sample_run 0 (sample_request (getEnv_config "JD_COOKIE" "Bearer first"))
            (sample_start sample_client))
     = Returned (VArr (map of_IGetEnvResp sample_envs)).
Proof.
  split.
  - apply (proj2 (proj1 (on_sample request_throws_iff (sample_service 0)
                           sample_unknown_config (sample_start sample_client)
                           sample_not_found 1%nat eq_refl))).
    right; left. simpl; lia.
  - apply (proj2 (on_sample request_throws_iff (sample_service 0)
                    (getEnv_config "JD_COOKIE" "Bearer first") (sample_start sample_client)
                    (sample_response (VArr (map of_IGetEnvResp sample_envs))) 1%nat eq_refl)).
    + simpl; lia.
    + reflexivity.
Defined.

(** C5 when the network is down: the one call is recorded and its rejection
    is what [request] throws. *)
Lemma request_issues_one_call_witness :
  calls (snd (run sample_offline (sample_request sample_unknown_config)
                (sample_start sample_client)))
    = [sample_unknown_config]
  /\ fst (run sample_offline (sample_request sample_unknown_config)
            (sample_start sample_client))
     = Thrown (AxiosError "timeout of 3000ms exceeded").
Proof.
  split.
  - exact (f_equal (fun r => calls (snd r))
             (proj1 (on_sample request_issues_one_call sample_offline
                       sample_unknown_config (sample_start sample_client)))).
  - apply (proj1 (proj2 (on_sample request_issues_one_call sample_offline
                           sample_unknown_config (sample_start sample_client)))).
    reflexivity.
Defined.

(** C6 on the sample list: of the two records named [JD_COOKIE] the first is
    returned, and [JD], which no record is named, is not found. *)
Lemma getEnv_first_match_witness :
  fst (sample_run 1800000000 (sample_getEnv "JD_COOKIE") (sample_start sample_client))
    = Returned (VObj [("id", VNum 2); ("name", VStr "JD_COOKIE");
                      ("value", VStr "pt_key=1"); ("remarks", VStr "main")])
  /\ fst (sample_run 1800000000 (sample_getEnv "JD") (sample_start sample_client))
     = Thrown (Error "Env 'JD' Not Found").
Proof.
  split.
  - refine (f_equal fst
             (proj1 (on_sample getEnv_first_match (sample_service 1800000000) "JD_COOKIE"
                       (sample_start sample_client) (sample_after_getToken 1800000000)
                       "Bearer first"
                       (sample_response (VArr (map of_IGetEnvResp sample_envs))) 2%nat
                       sample_envs _ _ _ _ _)));
      [reflexivity | reflexivity | simpl; lia | reflexivity | reflexivity].
  - refine (f_equal fst
             (proj1 (on_sample getEnv_first_match (sample_service 1800000000) "JD"
                       (sample_start sample_client) (sample_after_getToken 1800000000)
                       "Bearer first"
                       (sample_response (VArr (map of_IGetEnvResp sample_envs))) 2%nat
                       sample_envs _ _ _ _ _)));
      [reflexivity | reflexivity | simpl; lia | reflexivity | reflexivity].
Defined.

(** C7 as stated fails on a service whose tokens have the expiration time 0
    and whose network goes down after the lookup: the lookup of [JD_COOKIE]
    succeeds, yet [setEnv] throws, and the three requests it has made are the
    token request, the lookup and the token request again: no [PUT]. *)
Lemma setEnv_lookup_succeeds_without_put :
  fst (run sample_flaky (sample_getEnv "JD_COOKIE") (sample_start sample_client))
    = Returned (VObj [("id", VNum 2); ("name", VStr "JD_COOKIE");
                      ("value", VStr "pt_key=1"); ("remarks", VStr "main")])
  /\ fst (run sample_flaky (sample_setEnv "JD_COOKIE" "pt_key=9" (Some "new"))
            (sample_start sample_client))
     = Thrown (AxiosError "timeout of 3000ms exceeded")
  /\ calls (snd (run sample_flaky (sample_setEnv "JD_COOKIE" "pt_key=9" (Some "new"))
                   (sample_start sample_client)))
     = [token_config sample_client;
        getEnv_config "JD_COOKIE" "Bearer first";
        token_config sample_client].
Proof. repeat split; vm_compute; reflexivity. Qed.

(** C7, as amended, on the sample services: setting [JD], which cannot be
    looked up, throws the lookup's error; on the service whose network goes
    down after the lookup, [setEnv] throws what the second [getToken]
    throws; and setting [JD_COOKIE] with the remarks [new] returns what the
    [PUT] is answered with. *)
Lemma setEnv_looks_up_then_puts_witness :
  fst (sample_run 1800000000 (sample_setEnv "JD" "pt_key=9" None) (sample_start sample_client))
    = Thrown (Error "Env 'JD' Not Found")
  /\ fst (run sample_flaky (sample_setEnv "JD_COOKIE" "pt_key=9" (Some "new"))
            (sample_start sample_client))
     = Thrown (AxiosError "timeout of 3000ms exceeded")
  /\ fst (sample_run 1800000000 (sample_setEnv "JD_COOKIE" "pt_key=9" (Some "new"))
            (sample_start sample_client))
     = Returned (VObj [("id", VNum 2); ("name", VStr "JD_COOKIE");
                       ("value", VStr "pt_key=9"); ("remarks", VStr "new")]).
Proof.
  split; [ | split].
  - refine (f_equal fst
             (proj1 (proj1 (on_sample setEnv_looks_up_then_puts (sample_service 1800000000)
                              "JD" "pt_key=9" None (sample_start sample_client))
                       (Error "Env 'JD' Not Found")
                       (snd (sample_run 1800000000 (sample_getEnv "JD")
                               (sample_start sample_client))) _))).
    reflexivity.
  - refine (f_equal fst
             (proj1 (proj1 (proj2 (on_sample setEnv_looks_up_then_puts sample_flaky
                                     "JD_COOKIE" "pt_key=9" (Some "new")
                                     (sample_start sample_client)))
                       (VObj [("id", VNum 2); ("name", VStr "JD_COOKIE");
                              ("value", VStr "pt_key=1"); ("remarks", VStr "main")])
                       (snd (run sample_flaky (sample_getEnv "JD_COOKIE")
                               (sample_start sample_client)))
                       (snd (run sample_flaky (sample_setEnv "JD_COOKIE" "pt_key=9"
                                                 (Some "new"))
                               (sample_start sample_client)))
                       (AxiosError "timeout of 3000ms exceeded") _ _))).
    + reflexivity.
    + reflexivity.
  - refine (proj2 (proj2
             (proj2 (proj2 (on_sample setEnv_looks_up_then_puts (sample_service 1800000000)
                              "JD_COOKIE" "pt_key=9" (Some "new")
                              (sample_start sample_client)))
                (VObj [("id", VNum 2); ("name", VStr "JD_COOKIE");
                       ("value", VStr "pt_key=1"); ("remarks", VStr "main")])
                (snd (sample_run 1800000000 (sample_getEnv "JD_COOKIE")
                        (sample_start sample_client)))
                (snd (sample_run 1800000000 (sample_getEnv "JD_COOKIE")
                        (sample_start sample_client)))
                "Bearer first" _ _))
             (sample_response (VObj [("id", VNum 2); ("name", VStr "JD_COOKIE");
                                     ("value", VStr "pt_key=9"); ("remarks", VStr "new")]))
             _ _ _);
      [reflexivity | reflexivity | reflexivity | simpl; lia | reflexivity].
Defined.

(** C9 on the sample service: what [getEnv] returns for [JD_COOKIE] is
    truthy. *)
Lemma setEnv_guard_unreachable_witness :
  truthy (VObj [("id", VNum 2); ("name", VStr "JD_COOKIE");
                ("value", VStr "pt_key=1"); ("remarks", VStr "main")]) = true.
Proof.
  refine (proj1 (proj1 (on_sample setEnv_guard_unreachable (sample_service 1800000000)
                          "JD_COOKIE" "pt_key=9" None (sample_start sample_client))
                   _ (snd (sample_run 1800000000 (sample_getEnv "JD_COOKIE")
                             (sample_start sample_client))) _)).
  reflexivity.
Defined.

(** C8 fails on the code.  Two calls of [getToken] made together on a new
    client each create a lock of their own (line 75), so each takes its lock
    at once, finds nothing cached, and fetches.  In whatever order the event
    loop resumes the two calls, once both have ended the service has been
    asked for a token twice; and in the order in which the answers come back
    one after the other, the first caller has returned a token that
    [tokenInfo] no longer holds. *)
Theorem concurrent_getTokens_both_fetch :
  (forall schedule : list bool,
      match
        interleave (sample_service 1800000000) (map which_call schedule)
          (fst (two_getTokens 1800000000)) (snd (two_getTokens 1800000000))
      with
      | Some (pool, final) =>
          forallb ended pool = true ->
          calls final = [token_config sample_client; token_config sample_client]
      | None => True
      end)
  /\ match
       interleave (sample_service 1800000000) [0; 1; 0; 0; 1; 1]%nat
         (fst (two_getTokens 1800000000)) (snd (two_getTokens 1800000000))
     with
     | Some (pool, final) =>
         pool = [Fulfilled "Bearer first"; Fulfilled "Bearer second"]
         /\ calls final = [token_config sample_client; token_config sample_client]
         /\ tokenInfo (client final) = of_ITokenInfo (sample_token 1800000000 1)
         /\ locks final = [false; false]
     | None => False
     end.
Proof.
  split.
  - intros schedule.
    do 7 (destruct schedule as [ | second schedule];
          [vm_compute; first [exact I | intros H; first [discriminate H | reflexivity]]
          | destruct second]);
      vm_compute; exact I.
  - vm_compute. repeat split.
Qed.

(** * More theorems on sample services *)

(** X2 when the network is down: the first call of a new client throws the
    rejection, and so does the second, after a second request. *)
Lemma getToken_failed_fetch_witness :
  fst (run sample_offline sample_getToken (sample_start sample_client))
    = Thrown (AxiosError "timeout of 3000ms exceeded")
  /\ calls (snd (run sample_offline sample_getToken
                   (snd (run sample_offline sample_getToken (sample_start sample_client)))))
     = [token_config sample_client; token_config sample_client].
Proof.
  pose (H := on_sample getToken_failed_fetch sample_offline (sample_start sample_client)
               (AxiosError "timeout of 3000ms exceeded") eq_refl eq_refl).
  split.
  - exact (f_equal fst (proj1 H)).
  - exact (proj2 H).
Defined.

(** X3 on a service that answers [data: null]. *)
Lemma getToken_null_data_witness :
  fst (run (sample_always VNull) sample_getToken (sample_start sample_client))
    = Thrown TypeError
  /\ tokenInfo (client (snd (run (sample_always VNull) sample_getToken
                               (sample_start sample_client)))) = VNull.
Proof.
  refine (on_sample getToken_null_data (sample_always VNull) (sample_start sample_client)
            VNull _ _ _).
  - reflexivity.
  - reflexivity.
  - left; reflexivity.
Defined.

(** X4 on a service whose token information is an expiration time alone. *)
Lemma getToken_missing_fields_witness :
  fst (run (sample_always (VObj [("expiration", VNum 1800000000)])) sample_getToken
         (sample_start sample_client))
    = Returned "undefined undefined".
Proof.
  refine (proj1 (on_sample getToken_missing_fields
                   (sample_always (VObj [("expiration", VNum 1800000000)]))
                   (sample_start sample_client) [("expiration", VNum 1800000000)]
                   _ _ _ _)); reflexivity.
Defined.


(** X8 after the first call of a new client. *)
Lemma getToken_cache_hit_is_synchronous_witness :
  drive (sample_service 1800000000) sample_getToken (sample_after_getToken 1800000000)
    = (Fulfilled "Bearer first", sample_after_getToken 1800000000).
Proof.
  refine (on_sample getToken_cache_hit_is_synchronous (sample_service 1800000000)
            (sample_after_getToken 1800000000) (sample_token 1800000000 0) _ _).
  - reflexivity.
  - discriminate.
Defined.

(** X9 on a client holding a token. *)
Lemma getEnv_with_cached_token_witness :
  calls (snd (sample_run 1800000000 (sample_getEnv "JD_COOKIE") (sample_holding stale_token)))
    = [getEnv_config "JD_COOKIE" "Bearer stale"].
Proof.
  refine (proj1 (on_sample getEnv_with_cached_token (sample_service 1800000000)
                   "JD_COOKIE" (sample_holding stale_token) stale_token _ _)).
  - reflexivity.
  - discriminate.
Defined.

(** X10 on a client holding a token: the lookup, then the [PUT] with the
    [id] 2 of the first record named [JD_COOKIE]. *)
Lemma setEnv_with_cached_token_witness :
  calls (snd (sample_run 1800000000 (sample_setEnv "JD_COOKIE" "pt_key=9" (Some "new"))
                (sample_holding stale_token)))
    = [getEnv_config "JD_COOKIE" "Bearer stale";
       setEnv_config (VObj [("id", VNum 2)]) "JD_COOKIE" "pt_key=9" (Some "new")
         "Bearer stale"].
Proof.
  refine (f_equal (fun r => calls (snd r))
           (proj1 (on_sample setEnv_with_cached_token (sample_service 1800000000)
                     "JD_COOKIE" "pt_key=9" (Some "new") (sample_holding stale_token)
                     stale_token (sample_response (VArr (map of_IGetEnvResp sample_envs)))
                     1%nat sample_envs
                     {| env_id := 2; env_name := "JD_COOKIE"; env_value := "pt_key=1";
                        env_remarks := "main" |} _ _ _ _ _ _ _))).
  - reflexivity.
  - discriminate.
  - reflexivity.
  - simpl; lia.
  - reflexivity.
  - reflexivity.
  - reflexivity.
Defined.

(** X11 on a service that lists an object instead of a list. *)
Lemma getEnv_data_not_a_list_witness :
  fst (run (sample_listing (VObj [])) (sample_getEnv "JD_COOKIE") (sample_start sample_client))
    = Thrown TypeError.
Proof.
  refine (on_sample getEnv_data_not_a_list (sample_listing (VObj [])) "JD_COOKIE"
            (sample_start sample_client)
            (snd (run (sample_listing (VObj [])) sample_getToken (sample_start sample_client)))
            "Bearer first" (VObj []) _ _).
  - reflexivity.
  - reflexivity.
Defined.

(** X12 on a list with a [null] before the record asked for. *)
Lemma getEnv_null_record_witness :
  fst (run (sample_listing (VArr [of_IGetEnvResp
                                   {| env_id := 1; env_name := "JD_COOKIE_BAK";
                                      env_value := "pt_key=0"; env_remarks := "" |};
                                 VNull;
                                 of_IGetEnvResp
                                   {| env_id := 2; env_name := "JD_COOKIE";
                                      env_value := "pt_key=1"; env_remarks := "main" |}]))
         (sample_getEnv "JD_COOKIE") (sample_start sample_client))
    = Thrown TypeError.
Proof.
  refine (on_sample getEnv_null_record (sample_listing _) "JD_COOKIE"
            (sample_start sample_client)
            (snd (run (sample_listing (VArr [])) sample_getToken (sample_start sample_client)))
            "Bearer first"
            [{| env_id := 1; env_name := "JD_COOKIE_BAK"; env_value := "pt_key=0";
                env_remarks := "" |}]
            [of_IGetEnvResp {| env_id := 2; env_name := "JD_COOKIE";
                               env_value := "pt_key=1"; env_remarks := "main" |}] _ _).
  - reflexivity.
  - reflexivity.
Defined.

(** X13 when the network is down. *)
Lemma no_request_without_token_witness :
  calls (snd (run sample_offline (sample_setEnv "JD_COOKIE" "pt_key=9" None)
                (sample_start sample_client)))
    = [token_config sample_client].
Proof.
  refine (proj2 (proj2 (on_sample no_request_without_token sample_offline
                          "JD_COOKIE" "pt_key=9" None (sample_start sample_client)
                          (AxiosError "timeout of 3000ms exceeded") _ _)));
    reflexivity.
Defined.

(** X15 on the sample service, the first call resumed first. *)
Lemma concurrent_getTokens_send_two_requests_witness :
  match
    interleave (sample_service 1800000000) [0; 1]%nat
      (fst (two_getTokens 1800000000)) (snd (two_getTokens 1800000000))
  with
  | Some (pool, s') =>
      calls s' = [token_config sample_client; token_config sample_client]
      /\ forallb pending pool = true
      /\ client s' = sample_client
  | None => false = true
  end.
Proof.
  refine (on_sample concurrent_getTokens_send_two_requests (sample_service 1800000000)
            (sample_start sample_client) false true _).
  reflexivity.
Defined.

(** X16 on a new client and the sample service. *)
Lemma setEnv_first_use_witness :
  calls (snd (sample_run 1800000000 (sample_setEnv "JD_COOKIE" "pt_key=9" None)
                (sample_start sample_client)))
    = [token_config sample_client;
       getEnv_config "JD_COOKIE" "Bearer first";
       setEnv_config (VObj [("id", VNum 2)]) "JD_COOKIE" "pt_key=9" None "Bearer first"].
Proof.
  refine (f_equal (fun r => calls (snd r))
           (on_sample setEnv_first_use (sample_service 1800000000)
              "JD_COOKIE" "pt_key=9" None (sample_start sample_client)
              (sample_response (of_ITokenInfo (sample_token 1800000000 0)))
              (sample_response (VArr (map of_IGetEnvResp sample_envs)))
              1%nat 2%nat (sample_token 1800000000 0) sample_envs
              {| env_id := 2; env_name := "JD_COOKIE"; env_value := "pt_key=1";
                 env_remarks := "main" |} _ _ _ _ _ _ _ _ _ _ _)).
  - reflexivity.
  - reflexivity.
  - simpl; lia.
  - reflexivity.
  - reflexivity.
  - discriminate.
  - reflexivity.
  - simpl; lia.
  - reflexivity.
  - reflexivity.
  - reflexivity.
Defined.
